(** * Melody storefront: cart and wishlist reconciliation

    A shallow embedding of [frontend/src/contexts/CartContext.tsx] and
    [frontend/src/contexts/WishlistContext.tsx].

    Each provider owns a piece of React state ([items], [loading]), one
    [localStorage] slot and talks to a REST backend through [api].  The
    operations are [async] functions built from [try]/[catch]/[finally];
    they are embedded as programs of a state-and-exception monad over a
    [World] that holds the React state, the storage slot, the backend and
    a script of transport outcomes.  Mutations made before a [throw] stay
    in place, as in JavaScript. *)

From Stdlib Require Import List ZArith QArith String Bool Lia.
From Stdlib Require Import PrimFloat SpecFloat FloatOps.
Import ListNotations.

Close Scope Q_scope.
Local Open Scope Z_scope.
#[local] Set Warnings "-inexact-float".

(** ** JavaScript numbers

    A JavaScript [number] is an IEEE 754 binary64 value.  Prices are
    kept as such: [float] is the machine's binary64, with the machine's
    [+] and [*].  Quantities are integers in every call the application
    makes; they are kept as [Z], and [Number.add] is the doubles'
    addition on them: the exact sum rounded to the nearest integer a
    double holds, ties going to the even significand.  Up to [2 ^ 53] in
    magnitude every integer is a double and nothing is rounded.  The
    doubles end near [1.8e308]; sums beyond that, which JavaScript turns
    into [Infinity], and quantities that are not integers are outside
    this model. *)
Module Number.

(** The spacing of the doubles around [z]: [1] below [2 ^ 53], doubling
    with every further binary digit. *)
Definition ulp (z : Z) : Z := 2 ^ Z.max 0 (Z.log2 (Z.abs z) - 52).

(** The double nearest to the integer [z]. *)
Definition round (z : Z) : Z :=
  let u := ulp z in
  let q := z / u in
  let r := z mod u in
  if 2 * r <? u then q * u
  else if u <? 2 * r then (q + 1) * u
  else if Z.even q then q * u else (q + 1) * u.

(** [a + b] on two integer-valued doubles. *)
Definition add (a b : Z) : Z := round (a + b).

(** A quantity as the double it is, where it meets a price. *)
Definition to_double (z : Z) : float :=
  SF2Prim (binary_normalize prec emax z 0 false).

(** The rational a finite double stands for ([0] for the others). *)
Definition value (x : float) : Q :=
  match Prim2SF x with
  | S754_finite negative m e =>
      let magnitude :=
        if 0 <=? e then inject_Z (Z.pos m * 2 ^ e)
        else Qmake (Z.pos m) (Pos.pow 2 (Z.to_pos (- e))) in
      if negative then Qopp magnitude else magnitude
  | _ => 0 # 1
  end.
End Number.

(** ** Data ([frontend/src/types]) *)

(** [Product]: the fields the two providers read ([id], [price]) and
    [name], which lets two records share an [id] and still differ. *)
Record Product : Type := mkProduct {
  id : string;
  name : string;
  price : float
}.

(** [CartItem]: [quantity] is a JavaScript [number]; the callers pass
    integers, negative ones included. *)
Record CartItem : Type := mkCartItem {
  product : Product;
  quantity : Z
}.

(** ** Exceptions and results *)

Inductive exn : Type :=
| NetworkError                 (* the request got no response *)
| HttpError (status : nat)     (* [error.response.status] *)
| SyntaxError                  (* thrown by [JSON.parse] *)
| TypeError.                   (* a method called on a value without it *)

Inductive result (A : Type) : Type :=
| Ok (a : A)
| Throw (e : exn).
Arguments Ok {A} a.
Arguments Throw {A} e.

(** ** The text held by a storage slot

    [Stringified v] is the text [JSON.stringify(v)] of an array of
    entries; [EmptyText] is the empty string (falsy, so the providers
    never parse it); [Malformed] is any other text [JSON.parse] throws
    on.  These are the texts whose value, if any, has the declared type
    [CartItem[]] / [Product[]] of the state; the providers' model below
    is over them.  A text that parses to something else ([null], say) is
    stored in [items] unchecked by the same code: the branches that do
    so are embedded separately in [Untyped]. *)
Inductive Text (T : Type) : Type :=
| Stringified (v : list T)
| EmptyText
| Malformed.
Arguments Stringified {T} v.
Arguments EmptyText {T}.
Arguments Malformed {T}.

Definition JSON_stringify {T : Type} (v : list T) : Text T := Stringified v.

Definition JSON_parse_text {T : Type} (t : Text T) : result (list T) :=
  match t with
  | Stringified v => Ok v
  | EmptyText => Throw SyntaxError
  | Malformed => Throw SyntaxError
  end.

(** The test [if (saved)] on the value of [localStorage.getItem]:
    [null] and the empty string are falsy. *)
Definition truthy {T : Type} (saved : option (Text T)) : option (Text T) :=
  match saved with
  | Some EmptyText => None
  | Some t => Some t
  | None => None
  end.

(** ** The runtime: React state, storage slot, backend, transport *)

Section Runtime.
Context {T B : Type}.

(** [stale] records that [setItems] has replaced [items], a dependency
    of the persist effect, since the last commit: the next commit re-runs
    that effect.  [net] scripts the
    transport: [true] lets the next request reach the backend, [false]
    makes it fail without reaching it; past the end of the script every
    request reaches the backend. *)
Record World : Type := mkWorld {
  isAuthenticated : bool;
  items : list T;
  loading : bool;
  stale : bool;
  localStorage : option (Text T);
  server : B;
  net : list bool
}.

Definition with_auth (a : bool) (w : World) : World :=
  mkWorld a (items w) (loading w) (stale w) (localStorage w) (server w) (net w).
Definition with_items (v : list T) (w : World) : World :=
  mkWorld (isAuthenticated w) v (loading w) (stale w) (localStorage w) (server w) (net w).
Definition with_loading (l : bool) (w : World) : World :=
  mkWorld (isAuthenticated w) (items w) l (stale w) (localStorage w) (server w) (net w).
Definition with_stale (s : bool) (w : World) : World :=
  mkWorld (isAuthenticated w) (items w) (loading w) s (localStorage w) (server w) (net w).
Definition with_localStorage (s : option (Text T)) (w : World) : World :=
  mkWorld (isAuthenticated w) (items w) (loading w) (stale w) s (server w) (net w).
Definition with_server (b : B) (w : World) : World :=
  mkWorld (isAuthenticated w) (items w) (loading w) (stale w) (localStorage w) b (net w).
Definition with_net (n : list bool) (w : World) : World :=
  mkWorld (isAuthenticated w) (items w) (loading w) (stale w) (localStorage w) (server w) n.

(** Programs: a result and the world left behind, also when throwing. *)
Definition M (A : Type) : Type := World -> result A * World.

Definition ret {A : Type} (a : A) : M A := fun w => (Ok a, w).

Definition bind {A C : Type} (m : M A) (k : A -> M C) : M C :=
  fun w =>
    match m w with
    | (Ok a, w') => k a w'
    | (Throw e, w') => (Throw e, w')
    end.

Definition throw {A : Type} (e : exn) : M A := fun w => (Throw e, w).

(** [try { body } catch (e) { handler(e) }] *)
Definition try_catch {A : Type} (body : M A) (handler : exn -> M A) : M A :=
  fun w =>
    match body w with
    | (Ok a, w') => (Ok a, w')
    | (Throw e, w') => handler e w'
    end.

(** [try { body } catch (e) { handler(e) } finally { fin }]: [fin] runs
    on every path; what it throws replaces the outcome. *)
Definition try_catch_finally {A : Type}
    (body : M A) (handler : exn -> M A) (fin : M unit) : M A :=
  fun w =>
    match try_catch body handler w with
    | (r, w') =>
        match fin w' with
        | (Ok _, w'') => (r, w'')
        | (Throw e, w'') => (Throw e, w'')
        end
    end.

(** The world an operation leaves behind. *)
Definition exec {A : Type} (m : M A) (w : World) : World := snd (m w).

(** React state. [setItems] with a fresh array always changes the
    state, so the persist effect becomes due. *)
Definition get_isAuthenticated : M bool := fun w => (Ok (isAuthenticated w), w).
Definition get_items : M (list T) := fun w => (Ok (items w), w).
Definition setItems (v : list T) : M unit :=
  fun w => (Ok tt, with_stale true (with_items v w)).
Definition setLoading (l : bool) : M unit :=
  fun w => (Ok tt, with_loading l w).

(** [setItems((prevItems) => f(prevItems))] where [f] builds a new array. *)
Definition setItems_with (f : list T -> list T) : M unit :=
  fun w => setItems (f (items w)) w.

(** The storage slot.  The storage calls themselves are taken not to
    throw (no quota or security error). *)
Definition localStorage_getItem : M (option (Text T)) :=
  fun w => (Ok (localStorage w), w).
Definition localStorage_setItem (t : Text T) : M unit :=
  fun w => (Ok tt, with_localStorage (Some t) w).
Definition localStorage_removeItem : M unit :=
  fun w => (Ok tt, with_localStorage None w).

Definition JSON_parse (t : Text T) : M (list T) :=
  fun w => (JSON_parse_text t, w).

Definition console_error : M unit := ret tt.

(** One [await api.<verb>(...)]: the next transport outcome is consumed;
    a request that reaches the backend is answered by [handler]. *)
Definition request {A : Type} (handler : B -> result A * B) : M A :=
  fun w =>
    match net w with
    | false :: rest => (Throw NetworkError, with_net rest w)
    | true :: rest =>
        let (r, b) := handler (server w) in (r, with_net rest (with_server b w))
    | [] =>
        let (r, b) := handler (server w) in (r, with_server b w)
    end.
End Runtime.

Arguments World : clear implicits.
Arguments M : clear implicits.

Declare Scope prog_scope.
Delimit Scope prog_scope with prog.
Notation "x <- m ;; k" := (bind m (fun x => k))
  (at level 61, m at next level, right associativity) : prog_scope.
Notation "m ;; k" := (bind m (fun _ => k))
  (at level 61, right associativity) : prog_scope.
Local Open Scope prog_scope.

(** ** The cart provider ([CartContext.tsx]) *)

Module Cart.

(** Modelled from the spec: the REST backend behind [api] (section 6 of
    the specification); its code is not part of the client.  It keeps
    the product catalog and the account's cart. *)
Record Backend : Type := mkBackend {
  catalog : list Product;
  cart : list CartItem
}.

Definition same_id (pid : string) (item : CartItem) : bool :=
  String.eqb (id (product item)) pid.

Definition lookup (pid : string) (ps : list Product) : option Product :=
  find (fun p => String.eqb (id p) pid) ps.

(** Modelled from the spec: upsert by product reference; [merge] says
    how a quantity already stored combines with the one sent. *)
Definition upsert (merge : Z -> Z -> Z) (p : Product) (q : Z)
    (c : list CartItem) : list CartItem :=
  if existsb (same_id (id p)) c
  then map (fun item =>
              if same_id (id p) item
              then mkCartItem (product item) (merge (quantity item) q)
              else item) c
  else c ++ [mkCartItem p q].

(** Modelled from the spec: [GET /cart]. *)
Definition get_cart (b : Backend) : result (list CartItem) * Backend :=
  (Ok (cart b), b).

(** Modelled from the spec: [POST /cart/items {product_id, quantity}];
    an unknown product is answered 404. *)
Definition post_cart_item (pid : string) (q : Z) (b : Backend)
    : result unit * Backend :=
  match lookup pid (catalog b) with
  | Some p => (Ok tt, mkBackend (catalog b) (upsert Z.add p q (cart b)))
  | None => (Throw (HttpError 404), b)
  end.

(** Modelled from the spec: [PUT /cart/items/{product_id} {quantity}];
    404 when the cart has no such entry. *)
Definition put_cart_item (pid : string) (q : Z) (b : Backend)
    : result unit * Backend :=
  if existsb (same_id pid) (cart b)
  then (Ok tt,
        mkBackend (catalog b)
          (map (fun item =>
                  if same_id pid item then mkCartItem (product item) q else item)
               (cart b)))
  else (Throw (HttpError 404), b).

(** Modelled from the spec: [DELETE /cart/items/{product_id}] -> 204. *)
Definition delete_cart_item (pid : string) (b : Backend)
    : result unit * Backend :=
  (Ok tt,
   mkBackend (catalog b) (filter (fun item => negb (same_id pid item)) (cart b))).

(** Modelled from the spec: [DELETE /cart] -> 204. *)
Definition delete_cart (b : Backend) : result unit * Backend :=
  (Ok tt, mkBackend (catalog b) []).

(** Modelled from the spec: [POST /cart/sync [{product_id, quantity}]]
    merges the entries sent into the remote cart, upserting by product
    reference; entries of unknown products are skipped. *)
Definition post_cart_sync (entries : list (string * Z)) (b : Backend)
    : result unit * Backend :=
  (Ok tt,
   mkBackend (catalog b)
     (fold_left
        (fun c (e : string * Z) =>
           match lookup (fst e) (catalog b) with
           | Some p => upsert (fun _ q => q) p (snd e) c
           | None => c
           end)
        entries (cart b))).

Definition World : Type := World CartItem Backend.
Definition M (A : Type) : Type := M CartItem Backend A.

Definition sync_payload (localItems : list CartItem) : list (string * Z) :=
  map (fun item => (id (product item), quantity item)) localItems.

(** [loadCart] (lines 33-98). *)
Definition loadCart : M unit :=
  auth <- get_isAuthenticated ;;
  if auth then
    try_catch_finally
      (setLoading true ;;
       cartItems <- request get_cart ;;
       setItems cartItems ;;
       localStorage_setItem (JSON_stringify cartItems) ;;
       if (List.length cartItems =? 0)%nat then
         saved <- localStorage_getItem ;;
         match truthy saved with
         | Some text =>
             try_catch
               (localItems <- JSON_parse text ;;
                if (0 <? List.length localItems)%nat then
                  request (post_cart_sync (sync_payload localItems)) ;;
                  syncedItems <- request get_cart ;;
                  setItems syncedItems ;;
                  localStorage_setItem (JSON_stringify syncedItems)
                else ret tt)
               (fun syncError => console_error)
         | None => ret tt
         end
       else ret tt)
      (fun error =>
         console_error ;;
         try_catch
           (saved <- localStorage_getItem ;;
            match truthy saved with
            | Some text => parsed <- JSON_parse text ;; setItems parsed
            | None => ret tt
            end)
           (fun _ => setItems []))
      (setLoading false)
  else
    try_catch_finally
      (saved <- localStorage_getItem ;;
       parsed <- match truthy saved with
                 | Some text => JSON_parse text
                 | None => ret []
                 end ;;
       setItems parsed)
      (fun _ => setItems [])
      (setLoading false).

(** The effect of lines 102-105, run at a commit when [items] changed. *)
Definition persist_effect : M unit :=
  fun w =>
    if stale w
    then (Ok tt, with_stale false (with_localStorage (Some (JSON_stringify (items w))) w))
    else (Ok tt, w).

(** The updater of [addToCart]'s local branches (lines 129-140, 144-155). *)
Definition add_locally (prod : Product) (qty : Z) (prevItems : list CartItem)
    : list CartItem :=
  match find (same_id (id prod)) prevItems with
  | Some existingItem =>
      map (fun item =>
             if same_id (id prod) item
             then mkCartItem (product item) (Number.add (quantity item) qty)
             else item) prevItems
  | None => prevItems ++ [mkCartItem prod qty]
  end.

(** [addToCart] (lines 107-157). *)
Definition addToCart (prod : Product) (qty : Z) : M unit :=
  auth <- get_isAuthenticated ;;
  if auth then
    try_catch
      (current <- get_items ;;
       match find (same_id (id prod)) current with
       | Some existingItem =>
           request (put_cart_item (id prod)
                      (Number.add (quantity existingItem) qty))
       | None =>
           request (post_cart_item (id prod) qty)
       end ;;
       loadCart)
      (fun error => console_error ;; setItems_with (add_locally prod qty))
  else
    setItems_with (add_locally prod qty).

Definition remove_locally (productId : string) (prevItems : list CartItem)
    : list CartItem :=
  filter (fun item => negb (same_id productId item)) prevItems.

(** [removeFromCart] (lines 159-175). *)
Definition removeFromCart (productId : string) : M unit :=
  auth <- get_isAuthenticated ;;
  if auth then
    try_catch
      (request (delete_cart_item productId) ;; loadCart)
      (fun error => console_error ;; setItems_with (remove_locally productId))
  else
    setItems_with (remove_locally productId).

Definition update_locally (productId : string) (qty : Z)
    (prevItems : list CartItem) : list CartItem :=
  map (fun item =>
         if same_id productId item then mkCartItem (product item) qty else item)
      prevItems.

(** [updateQuantity] (lines 177-206). *)
Definition updateQuantity (productId : string) (qty : Z) : M unit :=
  if qty <=? 0 then removeFromCart productId
  else
    auth <- get_isAuthenticated ;;
    if auth then
      try_catch
        (request (put_cart_item productId qty) ;; loadCart)
        (fun error => console_error ;; setItems_with (update_locally productId qty))
    else
      setItems_with (update_locally productId qty).

(** [clearCart] (lines 208-224). *)
Definition clearCart : M unit :=
  auth <- get_isAuthenticated ;;
  if auth then
    try_catch
      (request delete_cart ;; setItems [] ;; localStorage_removeItem)
      (fun error => console_error ;; setItems [])
  else
    setItems [] ;; localStorage_removeItem.

(** [getTotalItems], [getTotalPrice], [isInCart] (lines 226-236):
    [reduce] is a left fold from [0]; every [+] and [*] in it is the
    doubles'. *)
Definition getTotalItems (its : list CartItem) : Z :=
  fold_left (fun total item => Number.add total (quantity item)) its 0.

Definition getTotalPrice (its : list CartItem) : float :=
  fold_left
    (fun total item =>
       (total + price (product item) * Number.to_double (quantity item))%float)
    its 0%float.

Definition isInCart (productId : string) (its : list CartItem) : bool :=
  existsb (same_id productId) its.

(** [syncCart] (lines 238-259). *)
Definition syncCart : M unit :=
  auth <- get_isAuthenticated ;;
  if negb auth then ret tt
  else
    try_catch
      (saved <- localStorage_getItem ;;
       match truthy saved with
       | Some text =>
           localItems <- JSON_parse text ;;
           if (0 <? List.length localItems)%nat then
             request (post_cart_sync (sync_payload localItems)) ;;
             loadCart
           else ret tt
       | None => ret tt
       end)
      (fun error => console_error).

(** The operations the provider runs, from its context value and from
    its effects. [Login] and [Logout] are changes of [isAuthenticated]
    made by the auth provider; they re-run the loading effect
    (lines 29-31). *)
Inductive Op : Type :=
| Load
| Add (prod : Product) (qty : Z)
| Remove (productId : string)
| Update (productId : string) (qty : Z)
| Clear
| Sync
| Login
| Logout.

Definition body (op : Op) : M unit :=
  match op with
  | Load => loadCart
  | Add prod qty => addToCart prod qty
  | Remove productId => removeFromCart productId
  | Update productId qty => updateQuantity productId qty
  | Clear => clearCart
  | Sync => syncCart
  | Login => (fun w => (Ok tt, with_auth true w)) ;; loadCart
  | Logout => (fun w => (Ok tt, with_auth false w)) ;; loadCart
  end.

(** An operation followed by the commit of the render it caused. *)
Definition dispatch (op : Op) : M unit := body op ;; persist_effect.

Definition step (w : World) (op : Op) : World := exec (dispatch op) w.

Definition run (ops : list Op) (w : World) : World := fold_left step ops w.

(** Mounting the provider: state [items = []], [loading = true],
    unauthenticated (the auth provider starts with no user); the
    loading effect runs, then the persist effect of the first render,
    which still sees [items = []], then the commit of the re-render. *)
Definition mount (slot : option (Text CartItem)) (b : Backend) (n : list bool)
    : World :=
  exec (loadCart ;; localStorage_setItem (JSON_stringify []) ;; persist_effect)
       (mkWorld false [] true false slot b n).

(** The readers of the context value, as operations on the world. *)
Definition call_getTotalItems : M Z :=
  current <- get_items ;; ret (getTotalItems current).
Definition call_getTotalPrice : M float :=
  current <- get_items ;; ret (getTotalPrice current).
Definition call_isInCart (productId : string) : M bool :=
  current <- get_items ;; ret (isInCart productId current).

End Cart.

(** ** The wishlist provider ([WishlistContext.tsx]) *)

Module Wishlist.

(** Modelled from the spec: the REST backend behind [api] (section 6 of
    the specification); its code is not part of the client.  It keeps
    the product catalog and the account's wishlist. *)
Record Backend : Type := mkBackend {
  catalog : list Product;
  wishlist : list Product
}.

Definition same_id (pid : string) (item : Product) : bool :=
  String.eqb (id item) pid.

Definition lookup (pid : string) (ps : list Product) : option Product :=
  find (same_id pid) ps.

(** Modelled from the spec: [GET /wishlist]; the client keeps
    [item.product] of every entry. *)
Definition get_wishlist (b : Backend) : result (list Product) * Backend :=
  (Ok (wishlist b), b).

(** Modelled from the spec: [POST /wishlist/items/{product_id}] creates
    the entry, is answered 409 if it is already present and 404 for an
    unknown product. *)
Definition post_wishlist_item (pid : string) (b : Backend)
    : result unit * Backend :=
  if existsb (same_id pid) (wishlist b)
  then (Throw (HttpError 409), b)
  else
    match lookup pid (catalog b) with
    | Some p => (Ok tt, mkBackend (catalog b) (wishlist b ++ [p]))
    | None => (Throw (HttpError 404), b)
    end.

(** Modelled from the spec: [DELETE /wishlist/items/{product_id}] -> 204. *)
Definition delete_wishlist_item (pid : string) (b : Backend)
    : result unit * Backend :=
  (Ok tt,
   mkBackend (catalog b) (filter (fun item => negb (same_id pid item)) (wishlist b))).

(** Modelled from the spec: [DELETE /wishlist] -> 204. *)
Definition delete_wishlist (b : Backend) : result unit * Backend :=
  (Ok tt, mkBackend (catalog b) []).

(** Modelled from the spec: [POST /wishlist/sync [product_id, ...]]
    merges the products sent into the remote wishlist as a set union;
    unknown products are skipped. *)
Definition post_wishlist_sync (pids : list string) (b : Backend)
    : result unit * Backend :=
  (Ok tt,
   mkBackend (catalog b)
     (fold_left
        (fun l pid =>
           if existsb (same_id pid) l then l
           else match lookup pid (catalog b) with
                | Some p => l ++ [p]
                | None => l
                end)
        pids (wishlist b))).

Definition World : Type := World Product Backend.
Definition M (A : Type) : Type := M Product Backend A.

(** [loadWishlist] (lines 30-86). *)
Definition loadWishlist : M unit :=
  auth <- get_isAuthenticated ;;
  if auth then
    try_catch_finally
      (setLoading true ;;
       wishlistProducts <- request get_wishlist ;;
       setItems wishlistProducts ;;
       localStorage_setItem (JSON_stringify wishlistProducts) ;;
       if (List.length wishlistProducts =? 0)%nat then
         saved <- localStorage_getItem ;;
         match truthy saved with
         | Some text =>
             try_catch
               (localItems <- JSON_parse text ;;
                if (0 <? List.length localItems)%nat then
                  request (post_wishlist_sync (map id localItems)) ;;
                  syncedProducts <- request get_wishlist ;;
                  setItems syncedProducts ;;
                  localStorage_setItem (JSON_stringify syncedProducts)
                else ret tt)
               (fun syncError => console_error)
         | None => ret tt
         end
       else ret tt)
      (fun error =>
         console_error ;;
         try_catch
           (saved <- localStorage_getItem ;;
            match truthy saved with
            | Some text => parsed <- JSON_parse text ;; setItems parsed
            | None => ret tt
            end)
           (fun _ => setItems []))
      (setLoading false)
  else
    try_catch_finally
      (saved <- localStorage_getItem ;;
       parsed <- match truthy saved with
                 | Some text => JSON_parse text
                 | None => ret []
                 end ;;
       setItems parsed)
      (fun _ => setItems [])
      (setLoading false).

(** The effect of lines 90-95, run at a commit when [items] or
    [isAuthenticated] changed; it writes only when unauthenticated. *)
Definition persist_effect : M unit :=
  fun w =>
    if stale w
    then
      if negb (isAuthenticated w)
      then (Ok tt, with_stale false (with_localStorage (Some (JSON_stringify (items w))) w))
      else (Ok tt, with_stale false w)
    else (Ok tt, w).

(** The updater of [addToWishlist]'s local branches (lines 111-116,
    121-126): returning [prevItems] itself leaves the state as it is. *)
Definition add_locally (prod : Product) : M unit :=
  fun w =>
    if existsb (same_id (id prod)) (items w)
    then (Ok tt, w)
    else setItems (items w ++ [prod]) w.

(** [error.response?.status === 409] *)
Definition is_conflict (error : exn) : bool :=
  match error with
  | HttpError status => (status =? 409)%nat
  | _ => false
  end.

(** [addToWishlist] (lines 97-128). *)
Definition addToWishlist (prod : Product) : M unit :=
  auth <- get_isAuthenticated ;;
  if auth then
    try_catch
      (request (post_wishlist_item (id prod)) ;; loadWishlist)
      (fun error =>
         if is_conflict error then loadWishlist
         else console_error ;; add_locally prod)
  else
    add_locally prod.

Definition remove_locally (productId : string) (prevItems : list Product)
    : list Product :=
  filter (fun item => negb (same_id productId item)) prevItems.

(** [removeFromWishlist] (lines 130-146). *)
Definition removeFromWishlist (productId : string) : M unit :=
  auth <- get_isAuthenticated ;;
  if auth then
    try_catch
      (request (delete_wishlist_item productId) ;; loadWishlist)
      (fun error => console_error ;; setItems_with (remove_locally productId))
  else
    setItems_with (remove_locally productId).

(** [clearWishlist] (lines 148-164). *)
Definition clearWishlist : M unit :=
  auth <- get_isAuthenticated ;;
  if auth then
    try_catch
      (request delete_wishlist ;; setItems [] ;; localStorage_removeItem)
      (fun error => console_error ;; setItems [])
  else
    setItems [] ;; localStorage_removeItem.

(** [isInWishlist] (lines 166-168). *)
Definition isInWishlist (productId : string) (its : list Product) : bool :=
  existsb (same_id productId) its.

(** [toggleWishlist] (lines 170-176). *)
Definition toggleWishlist (prod : Product) : M unit :=
  current <- get_items ;;
  if isInWishlist (id prod) current
  then removeFromWishlist (id prod)
  else addToWishlist prod.

Inductive Op : Type :=
| Load
| Add (prod : Product)
| Remove (productId : string)
| Clear
| Toggle (prod : Product)
| Login
| Logout.

(** [isAuthenticated] is a dependency of the persist effect too, so the
    effect re-runs in the render where it changes, after the loading
    effect has started: on [Login] it finds [isAuthenticated] true and
    writes nothing; on [Logout] it writes the [items] of that render,
    those from before the reload. *)
Definition body (op : Op) : M unit :=
  match op with
  | Load => loadWishlist
  | Add prod => addToWishlist prod
  | Remove productId => removeFromWishlist productId
  | Clear => clearWishlist
  | Toggle prod => toggleWishlist prod
  | Login => (fun w => (Ok tt, with_auth true w)) ;; loadWishlist
  | Logout =>
      rendered <- get_items ;;
      (fun w => (Ok tt, with_auth false w)) ;;
      loadWishlist ;;
      localStorage_setItem (JSON_stringify rendered)
  end.

(** An operation followed by the commit of the render it caused. *)
Definition dispatch (op : Op) : M unit := body op ;; persist_effect.

Definition step (w : World) (op : Op) : World := exec (dispatch op) w.

Definition run (ops : list Op) (w : World) : World := fold_left step ops w.

Definition mount (slot : option (Text Product)) (b : Backend) (n : list bool)
    : World :=
  exec (loadWishlist ;; localStorage_setItem (JSON_stringify []) ;; persist_effect)
       (mkWorld false [] true false slot b n).

Definition call_isInWishlist (productId : string) : M bool :=
  current <- get_items ;; ret (isInWishlist productId current).

End Wishlist.

(** ** Slot texts outside the declared type

    Nothing checks what [JSON.parse] returns for the slot's text before
    [setItems] stores it (CartContext.tsx lines 78-80 and 90-91,
    WishlistContext.tsx lines 65-67 and 78-79).  A text such as [null],
    [{}] or [5] parses, to a value that is not an array.  The two
    branches that read the slot are embedded here once more with that
    outcome kept, together with the readers and the local updater, which
    call an array method of [items] (lines 226-236, 143-146 and
    166-168).  Arrays whose elements are not entries are left out. *)
Module Untyped.

(** What [items] can hold: an array of entries, or a JSON value that is
    not an array ([null], a boolean, a number, a string, an object). *)
Inductive Value (T : Type) : Type :=
| Array (v : list T)
| NotArray.
Arguments Array {T} v.
Arguments NotArray {T}.

(** A slot text: one of the declared type's, or the text of a JSON
    value that is not an array. *)
Inductive SlotText (T : Type) : Type :=
| Typed (t : Text T)
| OtherJson.
Arguments Typed {T} t.
Arguments OtherJson {T}.

Definition JSON_parse_text {T : Type} (t : SlotText T) : result (Value T) :=
  match t with
  | Typed t =>
      match JSON_parse_text t with
      | Ok v => Ok (Array v)
      | Throw e => Throw e
      end
  | OtherJson => Ok NotArray
  end.

(** [if (saved)]: only [null] and the empty string are falsy. *)
Definition truthy {T : Type} (saved : option (SlotText T))
    : option (SlotText T) :=
  match saved with
  | Some (Typed EmptyText) => None
  | Some t => Some t
  | None => None
  end.

(** The anonymous branch of [loadCart] / [loadWishlist], as the value
    [items] gets: [setItems(saved ? JSON.parse(saved) : [])], and
    [setItems([])] when that throws. *)
Definition load_anonymous {T : Type} (saved : option (SlotText T)) : Value T :=
  match truthy saved with
  | Some text =>
      match JSON_parse_text text with
      | Ok parsed => parsed
      | Throw _ => Array []
      end
  | None => Array []
  end.

(** The branch taken when the fetch of an authenticated load has
    failed: [if (saved) setItems(JSON.parse(saved))], and [setItems([])]
    when that throws; [previous] is what [items] held. *)
Definition load_after_failed_fetch {T : Type}
    (saved : option (SlotText T)) (previous : Value T) : Value T :=
  match truthy saved with
  | Some text =>
      match JSON_parse_text text with
      | Ok parsed => parsed
      | Throw _ => Array []
      end
  | None => previous
  end.

(** [items.reduce(...)], [items.some(...)], [prevItems.find(...)]: a
    value that is not an array has no such method, and the call throws
    a [TypeError]. *)
Definition array_method {T A : Type} (its : Value T) (f : list T -> A)
    : result A :=
  match its with
  | Array v => Ok (f v)
  | NotArray => Throw TypeError
  end.

Definition getTotalItems (its : Value CartItem) : result Z :=
  array_method its Cart.getTotalItems.

Definition getTotalPrice (its : Value CartItem) : result float :=
  array_method its Cart.getTotalPrice.

Definition isInCart (productId : string) (its : Value CartItem) : result bool :=
  array_method its (Cart.isInCart productId).

Definition isInWishlist (productId : string) (its : Value Product)
    : result bool :=
  array_method its (Wishlist.isInWishlist productId).

(** The updater of an anonymous [addToCart]. *)
Definition add_locally (prod : Product) (qty : Z) (prevItems : Value CartItem)
    : result (list CartItem) :=
  array_method prevItems (Cart.add_locally prod qty).

End Untyped.

(** ** Sample data *)

Definition productA : Product := mkProduct "A"%string "Rose serum"%string 19.99%float.
Definition productB : Product := mkProduct "B"%string "Night cream"%string 24.5%float.

Definition shop : list Product := [productA; productB].

(** An anonymous visitor's cart after [add(productA, 2)], [add(productB, 1)]. *)
Definition anonymous_cart : Cart.World :=
  Cart.run [Cart.Add productA 2; Cart.Add productB 1]
    (Cart.mount None (Cart.mkBackend shop []) []).

(** An anonymous visitor's wishlist after [add(productA)], [add(productB)]. *)
Definition anonymous_wishlist : Wishlist.World :=
  Wishlist.run [Wishlist.Add productA; Wishlist.Add productB]
    (Wishlist.mount None (Wishlist.mkBackend shop []) []).

(** A signed-in customer holding [productA] once, whose next request
    will not reach the backend. *)
Definition offline_cart : Cart.World :=
  mkWorld true [mkCartItem productA 1] false false
    (Some (Stringified [mkCartItem productA 1]))
    (Cart.mkBackend shop [mkCartItem productA 1]) [false].

Definition offline_wishlist : Wishlist.World :=
  mkWorld true [productA] false false (Some (Stringified [productA]))
    (Wishlist.mkBackend shop [productA]) [false].

(** A signed-in customer whose wishlist holds [productB] on both sides. *)
Definition member_wishlist : Wishlist.World :=
  mkWorld true [productB] false false (Some (Stringified [productB]))
    (Wishlist.mkBackend shop [productB]) [].

(** A signed-in customer whose snapshot is empty while the remote
    wishlist holds [productB], and whose next request only is lost. *)
Definition recovering_wishlist : Wishlist.World :=
  mkWorld true [] false false (Some (Stringified []))
    (Wishlist.mkBackend shop [productB]) [false].

(** ** Properties of snapshots and worlds *)

Definition product_references (its : list CartItem) : list string :=
  map (fun item => id (product item)) its.

Definition unique_products (its : list CartItem) : Prop :=
  NoDup (product_references its).

Definition positive_quantities (its : list CartItem) : Prop :=
  Forall (fun item => 0 < quantity item) its.

(** The operations of an anonymous session that only adds, removes and
    updates, every [add] being issued with a quantity of at least one
    (the callers clamp it: [Math.max(1, ...)] in [ProductDetail], the
    literal [1] in [Home], the default [1] in [Wishlist]). *)
Definition anonymous_op (op : Cart.Op) : Prop :=
  match op with
  | Cart.Add _ qty => 1 <= qty
  | Cart.Remove _ => True
  | Cart.Update _ _ => True
  | _ => False
  end.

(** The same session without the bound on the quantities added. *)
Definition anonymous_mutation (op : Cart.Op) : Prop :=
  match op with
  | Cart.Add _ _ => True
  | Cart.Remove _ => True
  | Cart.Update _ _ => True
  | _ => False
  end.

(** The totals as the specification words them: the sum over the entries
    of [quantity], and of [quantity * price], as the numbers they are. *)
Fixpoint sum_of_quantities (its : list CartItem) : Z :=
  match its with
  | [] => 0
  | entry :: rest => quantity entry + sum_of_quantities rest
  end.

Fixpoint sum_of_amounts (its : list CartItem) : Q :=
  match its with
  | [] => 0 # 1
  | entry :: rest =>
      Qplus (Qmult (inject_Z (quantity entry))
                   (Number.value (price (product entry))))
            (sum_of_amounts rest)
  end.

Definition nonnegative_quantities (its : list CartItem) : Prop :=
  Forall (fun item => 0 <= quantity item) its.

(** The storage slot holds the serialization of the canonical snapshot. *)
Definition mirrors {T B : Type} (w : World T B) : Prop :=
  localStorage w = Some (JSON_stringify (items w)).

(** The first [n] scripted requests, if any, reach the backend. *)
Definition reaches {T B : Type} (n : nat) (w : World T B) : Prop :=
  Forall (fun up => up = true) (firstn n (net w)).

(** The next [n] requests are scripted to fail. *)
Definition fails {T B : Type} (n : nat) (w : World T B) : Prop :=
  exists rest, net w = repeat false n ++ rest.

(** The next request, sent now, would throw. *)
Definition request_fails {T B A : Type}
    (handler : B -> result A * B) (w : World T B) : Prop :=
  exists e, fst (request handler w) = Throw e.

(** The next create-entry request would throw something other than a
    409 conflict, which [addToWishlist] treats as a failure. *)
Definition create_fails (pid : string) (w : Wishlist.World) : Prop :=
  exists e, fst (request (Wishlist.post_wishlist_item pid) w) = Throw e /\
            Wishlist.is_conflict e = false.

(** What an operation leaves untouched when it changes [items] only:
    authentication state, loading flag, storage slot and backend. *)
Definition only_items_changed {T B : Type} (w w' : World T B) : Prop :=
  isAuthenticated w' = isAuthenticated w /\
  loading w' = loading w /\
  localStorage w' = localStorage w /\
  server w' = server w.

(** A program that never lets an exception out. *)
Definition never_throws {T B A : Type} (m : M T B A) : Prop :=
  forall w, exists a w', m w = (Ok a, w').

(** An authenticated wishlist whose snapshot, slot and remote list agree. *)
Definition settled (w : Wishlist.World) : Prop :=
  localStorage w = Some (Stringified (items w)) /\
  Wishlist.wishlist (server w) = items w.

(** The backend neither lists the product nor knows it. *)
Definition unknown_product (pid : string) (w : Wishlist.World) : Prop :=
  existsb (Wishlist.same_id pid) (Wishlist.wishlist (server w)) = false /\
  Wishlist.lookup pid (Wishlist.catalog (server w)) = None.

(** *** What a load leaves behind

    The three outcomes of [loadCart] / [loadWishlist], written out as
    worlds: the remote list was fetched, the fetch failed and the slot
    was read instead, or the visitor is anonymous. *)

Section Loaded.
Context {T B : Type}.

Definition after_fetch (fetched : list T) (w : World T B) : World T B :=
  mkWorld (isAuthenticated w) fetched false true
          (Some (JSON_stringify fetched)) (server w) (tl (net w)).

Definition after_slot_read (w : World T B) : World T B :=
  match truthy (localStorage w) with
  | Some (Stringified v) =>
      mkWorld (isAuthenticated w) v false true (localStorage w) (server w) (net w)
  | Some _ =>
      mkWorld (isAuthenticated w) [] false true (localStorage w) (server w) (net w)
  | None => with_loading false w
  end.

Definition after_failed_fetch (w : World T B) : World T B :=
  after_slot_read (with_net (tl (net w)) w).

Definition after_local_load (w : World T B) : World T B :=
  match truthy (localStorage w) with
  | Some (Stringified v) =>
      mkWorld (isAuthenticated w) v false true (localStorage w) (server w) (net w)
  | _ =>
      mkWorld (isAuthenticated w) [] false true (localStorage w) (server w) (net w)
  end.

Definition after_load (remote : B -> list T) (w : World T B) : World T B :=
  if isAuthenticated w then
    match net w with
    | false :: _ => after_failed_fetch w
    | _ => after_fetch (remote (server w)) w
    end
  else after_local_load w.
End Loaded.

(** ** Beyond the providers' mutations: callers and the auth provider *)

(** A signed-in customer coming back: the snapshot is still empty, the
    remote cart holds [productA] once. *)
Definition returning_cart : Cart.World :=
  mkWorld true [] false false (Some (Stringified []))
    (Cart.mkBackend shop [mkCartItem productA 1]) [].

(** The same for the wishlist, with [productA] left in the slot and
    [productB] on the remote list. *)
Definition returning_wishlist : Wishlist.World :=
  mkWorld true [] false false (Some (Stringified [productA]))
    (Wishlist.mkBackend shop [productB]) [].

(** What a cart mutation does to the snapshot when it is applied
    locally: the updaters of [addToCart], [removeFromCart] and
    [updateQuantity]; the other operations have none. *)
Definition local_effect (op : Cart.Op) (its : list CartItem) : list CartItem :=
  match op with
  | Cart.Add prod qty => Cart.add_locally prod qty its
  | Cart.Remove productId => Cart.remove_locally productId its
  | Cart.Update productId qty =>
      if qty <=? 0 then Cart.remove_locally productId its
      else Cart.update_locally productId qty its
  | _ => its
  end.

(** The request a signed-in cart mutation sends first, given the
    snapshot it looks the product up in (lines 111-124, 163, 186). *)
Definition mutation_request (op : Cart.Op) (its : list CartItem)
    : Cart.Backend -> result unit * Cart.Backend :=
  match op with
  | Cart.Add prod qty =>
      match find (Cart.same_id (id prod)) its with
      | Some existingItem =>
          Cart.put_cart_item (id prod) (Number.add (quantity existingItem) qty)
      | None => Cart.post_cart_item (id prod) qty
      end
  | Cart.Remove productId => Cart.delete_cart_item productId
  | Cart.Update productId qty =>
      if qty <=? 0 then Cart.delete_cart_item productId
      else Cart.put_cart_item productId qty
  | _ => fun b => (Ok tt, b)
  end.

(** The snapshot a slot gives when it is read by an anonymous load. *)
Definition slot_entries {T : Type} (slot : option (Text T)) : list T :=
  match truthy slot with
  | Some (Stringified v) => v
  | _ => []
  end.

Definition unique_wishes (its : list Product) : Prop := NoDup (map id its).

(** The wishlist operations of a session that only adds, removes,
    toggles and clears. *)
Definition wishlist_mutation (op : Wishlist.Op) : Prop :=
  match op with
  | Wishlist.Add _ => True
  | Wishlist.Remove _ => True
  | Wishlist.Toggle _ => True
  | Wishlist.Clear => True
  | _ => False
  end.

(** What a wishlist mutation does to the snapshot when it is applied
    locally. *)
Definition wish_effect (op : Wishlist.Op) (its : list Product) : list Product :=
  match op with
  | Wishlist.Add prod =>
      if Wishlist.isInWishlist (id prod) its then its else its ++ [prod]
  | Wishlist.Remove productId => Wishlist.remove_locally productId its
  | Wishlist.Toggle prod =>
      if Wishlist.isInWishlist (id prod) its
      then Wishlist.remove_locally (id prod) its
      else its ++ [prod]
  | Wishlist.Clear => []
  | _ => its
  end.

(** An authenticated wishlist mutation whose remote call fails, so that
    the local fallback runs. *)
Definition wishlist_fallback (op : Wishlist.Op) (w : Wishlist.World) : Prop :=
  match op with
  | Wishlist.Add prod => create_fails (id prod) w
  | Wishlist.Remove productId =>
      request_fails (Wishlist.delete_wishlist_item productId) w
  | Wishlist.Clear => request_fails Wishlist.delete_wishlist w
  | _ => False
  end.

(** [getImageUrl] ([pages/Cart.tsx] lines 12-16, repeated in the other
    pages): [None] is [undefined] or [null]; the empty string is falsy. *)
Definition getImageUrl (url : option string) : string :=
  match url with
  | None => ""%string
  | Some u =>
      if String.eqb u ""%string then ""%string
      else if String.prefix "http"%string u then u
      else String.append "http://localhost:8000"%string u
  end.

(** *** The product page ([ProductDetail], in [pages/OrderDetail.tsx]) *)

Module ProductDetail.
Section WithStock.
(** The [stock_quantity] field of a product. *)
Variable stock_quantity : Product -> Z.

(** [product?.stock_quantity || 1]: a missing product and a stock of
    zero both give [1]. *)
Definition stock_or_one (product : option Product) : Z :=
  match product with
  | Some p => if stock_quantity p =? 0 then 1 else stock_quantity p
  | None => 1
  end.

(** [handleQuantityChange] (lines 507-510), as the new value of the
    [quantity] state. *)
Definition handleQuantityChange
    (product : option Product) (quantity delta : Z) : Z :=
  Z.max 1 (Z.min (quantity + delta) (stock_or_one product)).

(** The page: the fetched product, the [quantity] state, and the cart
    provider it talks to. *)
Record Page : Type := mkPage {
  product : option Product;
  quantity : Z;
  cart : Cart.World
}.

(** [useState(1)] for [quantity]. *)
Definition opened (product : option Product) (cart : Cart.World) : Page :=
  mkPage product 1 cart.

Inductive Click : Type :=
| ChangeQuantity (delta : Z)
| AddToCartClick.

(** [handleAddToCart] (lines 499-505) behind its button, which is
    disabled when [product.stock_quantity === 0]. *)
Definition click (page : Page) (c : Click) : Page :=
  match c with
  | ChangeQuantity delta =>
      mkPage (product page)
             (handleQuantityChange (product page) (quantity page) delta)
             (cart page)
  | AddToCartClick =>
      match product page with
      | Some p =>
          if stock_quantity p =? 0 then page
          else mkPage (product page) (quantity page)
                      (Cart.step (cart page) (Cart.Add p (quantity page)))
      | None => page
      end
  end.

Definition session (clicks : list Click) (page : Page) : Page :=
  fold_left click clicks page.
End WithStock.
End ProductDetail.

(** *** The cart page ([pages/Cart.tsx]) *)

Module CartPage.
Section WithStock.
Variable stock_quantity : Product -> Z.

(** The buttons of row [row] of the rendered snapshot, and the
    clear-cart button. *)
Inductive Click : Type :=
| Minus (row : nat)
| Plus (row : nat)
| Trash (row : nat)
| ClearCart.

(** Lines 101-115 and 122-123: the minus button is disabled at a
    quantity of one or less, the plus button at the stock quantity. *)
Definition click (w : Cart.World) (c : Click) : Cart.World :=
  match c with
  | Minus row =>
      match nth_error (items w) row with
      | Some item =>
          if quantity item <=? 1 then w
          else Cart.step w (Cart.Update (id (product item)) (quantity item - 1))
      | None => w
      end
  | Plus row =>
      match nth_error (items w) row with
      | Some item =>
          if stock_quantity (product item) <=? quantity item then w
          else Cart.step w (Cart.Update (id (product item)) (quantity item + 1))
      | None => w
      end
  | Trash row =>
      match nth_error (items w) row with
      | Some item => Cart.step w (Cart.Remove (id (product item)))
      | None => w
      end
  | ClearCart => Cart.step w Cart.Clear
  end.

Definition session (clicks : list Click) (w : Cart.World) : Cart.World :=
  fold_left click clicks w.
End WithStock.
End CartPage.

(** *** The header badges ([components/Layout.tsx] lines 166-170, 180-184) *)

Module Layout.
Inductive Badge : Type :=
| Hidden
| Count (n : Z)
| NinePlus.

(** [n > 0 && (n > 9 ? '9+' : n)] *)
Definition badge (n : Z) : Badge :=
  if 0 <? n then (if 9 <? n then NinePlus else Count n) else Hidden.

Definition cart_badge (w : Cart.World) : Badge :=
  badge (Cart.getTotalItems (items w)).

Definition wishlist_badge (w : Wishlist.World) : Badge :=
  badge (Z.of_nat (List.length (items w))).
End Layout.

(** *** The hero slider ([pages/Home.tsx] lines 113-119) *)

Module Home.
(** JavaScript's [%] truncates towards zero: [Z.rem]. *)
Definition nextSlide (featuredProducts_length prev : Z) : Z :=
  Z.rem (prev + 1) featuredProducts_length.

Definition prevSlide (featuredProducts_length prev : Z) : Z :=
  Z.rem (prev - 1 + featuredProducts_length) featuredProducts_length.
End Home.

(** *** Checkout ([pages/Checkout.tsx] lines 91-189) *)

Module Checkout.
(** How [handleSubmit] ends: the form was rejected, the order page was
    navigated to, or an error was caught and shown. *)
Inductive Outcome : Type :=
| Invalid
| Navigated
| Failed (e : exn).

Section Orders.
(** The order endpoints, answered by the backend in some way:
    [POST /orders/from-cart], [POST /orders] (each returning the order
    id) and [POST /orders/{id}/payment]. *)
Variable create_from_cart : Cart.Backend -> result string * Cart.Backend.
Variable create_with_items :
  list CartItem -> Cart.Backend -> result string * Cart.Backend.
Variable process_payment : string -> Cart.Backend -> result unit * Cart.Backend.

(** [clearCart()] is called without [await] (lines 137 and 174), so
    [navigate] follows as soon as [clearCart] reaches its first [await].
    An anonymous [clearCart] has none and has run in full by then; a
    signed-in one has only sent its [DELETE /cart], and what it does
    with the outcome comes after the navigation. *)
Definition clearCart_unawaited : Cart.M unit :=
  auth <- get_isAuthenticated ;;
  if auth then ret tt else Cart.clearCart.

Definition clearCart_pending : Cart.M unit :=
  auth <- get_isAuthenticated ;;
  if auth then Cart.clearCart else ret tt.

(** [handleSubmit], up to the return of its promise; [valid] is the
    verdict of [validateForm]. The page's own [loading] and [error]
    states are not kept: the outcome says whether an error was set. *)
Definition handleSubmit (valid : bool) : Cart.M Outcome :=
  if negb valid then ret Invalid
  else
    try_catch_finally
      (auth <- get_isAuthenticated ;;
       if auth then
         Cart.syncCart ;;
         order <- request create_from_cart ;;
         request (process_payment order) ;;
         clearCart_unawaited ;;
         ret Navigated
       else
         current <- get_items ;;
         order <- request (create_with_items current) ;;
         request (process_payment order) ;;
         clearCart_unawaited ;;
         ret Navigated)
      (fun err => ret (Failed err))
      (ret tt).

(** The submission followed by the commit of the cart provider: the
    world in which the order page, if navigated to, is shown. *)
Definition submit (valid : bool) : Cart.M Outcome :=
  outcome <- handleSubmit valid ;; Cart.persist_effect ;; ret outcome.

(** What is still to come after a submission: the rest of a pending
    [clearCart], once its request has settled, and the commit. *)
Definition settle (outcome : Outcome) : Cart.M unit :=
  match outcome with
  | Navigated => clearCart_pending ;; Cart.persist_effect
  | _ => ret tt
  end.
End Orders.
End Checkout.

(** *** The auth provider ([contexts/AuthContext.tsx]) *)

Module Auth.
Inductive Role : Type := admin | customer.

Record User : Type := mkUser {
  email : string;
  role : Role
}.

(** The provider's state and the two storage slots it owns. *)
Record State : Type := mkState {
  user : option User;
  loading : bool;
  access_token : option string;
  refresh_token : option string
}.

Definition isAuthenticated (s : State) : bool :=
  match user s with Some _ => true | None => false end.

Definition isAdmin (s : State) : bool :=
  match user s with
  | Some u => match role u with admin => true | customer => false end
  | None => false
  end.

(** A page load: the React state starts over, the storage stays. *)
Definition mount (access refresh : option string) : State :=
  mkState None true access refresh.

(** [checkAuth] (lines 25-41); [me] is the answer [GET /auth/me] gets
    if it is sent. *)
Definition checkAuth (me : result User) (s : State) : State :=
  match access_token s with
  | None => mkState (user s) false (access_token s) (refresh_token s)
  | Some token =>
      if String.eqb token ""%string
      then mkState (user s) false (access_token s) (refresh_token s)
      else
        match me with
        | Ok u => mkState (Some u) false (access_token s) (refresh_token s)
        | Throw _ => mkState (user s) false None None
        end
  end.

(** [login] (lines 43-51); [tokens] is the answer of
    [POST /auth/login], [me] that of [GET /auth/me]. Nothing is caught. *)
Definition login (tokens : result (string * string)) (me : result User)
    (s : State) : result unit * State :=
  match tokens with
  | Throw e => (Throw e, s)
  | Ok (access, refresh) =>
      let stored := mkState (user s) (loading s) (Some access) (Some refresh) in
      match me with
      | Ok u => (Ok tt, mkState (Some u) (loading s) (Some access) (Some refresh))
      | Throw e => (Throw e, stored)
      end
  end.

(** [logout] (lines 68-72). *)
Definition logout (s : State) : State :=
  mkState None (loading s) None None.

(** Reloading the page and letting [checkAuth] run. *)
Definition reload (me : result User) (s : State) : State :=
  checkAuth me (mount (access_token s) (refresh_token s)).
End Auth.

(** * Proofs *)

Arguments Cart.loadCart : simpl never.
Arguments Wishlist.loadWishlist : simpl never.
Arguments Number.round : simpl never.
Arguments Number.add : simpl never.

(** ** Numbers: where the doubles' addition is exact *)

Lemma ulp_below (z : Z) : Z.abs z < 2 ^ 53 -> Number.ulp z = 1.
Proof.
  intros H. unfold Number.ulp.
  assert (L : Z.log2 (Z.abs z) <= 52).
  { destruct (Z.eq_dec (Z.abs z) 0) as [->|N]; [simpl; lia|].
    assert (Z.log2 (Z.abs z) < 53); [|lia].
    apply Z.log2_lt_pow2; lia. }
  replace (Z.max 0 (Z.log2 (Z.abs z) - 52)) with 0 by lia. reflexivity.
Qed.

Lemma round_exact (z : Z) : Z.abs z <= 2 ^ 53 -> Number.round z = z.
Proof.
  intros H. unfold Number.round.
  destruct (Z.eq_dec (Z.abs z) (2 ^ 53)) as [E|N].
  - assert (U : Number.ulp z = 2).
    { unfold Number.ulp. rewrite E. reflexivity. }
    rewrite U.
    assert (M : z mod 2 = 0).
    { destruct (Z.abs_eq_or_opp z) as [A|A]; rewrite A in E.
      - rewrite E. reflexivity.
      - replace z with (- 2 ^ 53) by lia. reflexivity. }
    rewrite M. simpl.
    pose proof (Z.div_mod z 2). lia.
  - rewrite ulp_below by lia.
    rewrite Z.mod_1_r, Z.div_1_r. simpl. lia.
Qed.

Lemma round_lower (z : Z) : 2 ^ 53 <= z -> 2 ^ 53 <= Number.round z.
Proof.
  intros H. unfold Number.round.
  set (k := Z.max 0 (Z.log2 (Z.abs z) - 52)).
  assert (Hz : 0 < z) by (pose proof (Z.pow_pos_nonneg 2 53); lia).
  assert (L : 53 <= Z.log2 z) by (apply Z.log2_le_pow2; lia).
  assert (K : k = Z.log2 z - 52) by (unfold k; rewrite Z.abs_eq by lia; lia).
  assert (U : Number.ulp z = 2 ^ k) by reflexivity.
  rewrite U.
  assert (P : 0 < 2 ^ k) by (apply Z.pow_pos_nonneg; lia).
  assert (S : 2 ^ 52 * 2 ^ k <= z).
  { rewrite <- Z.pow_add_r by lia. replace (52 + k) with (Z.log2 z) by lia.
    apply Z.log2_spec. lia. }
  assert (Q : 2 ^ 52 <= z / 2 ^ k).
  { apply Z.div_le_lower_bound; lia. }
  assert (G : 2 ^ 53 <= 2 ^ 52 * 2 ^ k).
  { replace (2 ^ 53) with (2 ^ 52 * 2 ^ 1) by reflexivity.
    apply Z.mul_le_mono_nonneg_l; [lia|].
    apply Z.pow_le_mono_r; lia. }
  assert (R : 2 ^ 53 <= z / 2 ^ k * 2 ^ k) by nia.
  repeat match goal with |- context [if ?c then _ else _] => destruct c end; nia.
Qed.

Lemma round_positive (z : Z) : 0 < z -> 0 < Number.round z.
Proof.
  intros H. destruct (Z_le_gt_dec (2 ^ 53) z) as [G|G].
  - pose proof (round_lower z G). lia.
  - rewrite round_exact; [exact H|]. rewrite Z.abs_eq; lia.
Qed.

Lemma add_exact (a b : Z) : Z.abs (a + b) <= 2 ^ 53 -> Number.add a b = a + b.
Proof. apply round_exact. Qed.

(** On samples around the binades' ends, [Number.add] is the machine's
    addition of the two doubles. *)
Example add_is_the_machine's :
  forallb (fun ab : Z * Z =>
             PrimFloat.eqb (Number.to_double (Number.add (fst ab) (snd ab)))
               (PrimFloat.add (Number.to_double (fst ab)) (Number.to_double (snd ab))))
    [(2, 3); (2 ^ 53, 1); (2 ^ 53, 2); (2 ^ 53 + 2, 1); (2 ^ 53 + 2, 3);
     (- 2 ^ 53, -1); (- 2 ^ 53 - 2, -1); (2 ^ 54, 2); (2 ^ 54, 6);
     (2 ^ 54 - 2, 1); (2 ^ 60, 2 ^ 7); (2 ^ 60, 3 * 2 ^ 7); (2 ^ 100, -1);
     (2 ^ 53, - 2 ^ 53); (2 ^ 62 - 2 ^ 9, 2 ^ 8); (-7, 7)]
  = true.
Proof. vm_compute. reflexivity. Qed.

(** Unfolding the combinators and the operations, the loads excepted:
    those are replaced by their outcome ([loadCart_result]). *)
Ltac unfold_runtime :=
  unfold exec, bind, ret, throw, try_catch_finally, try_catch, request,
    get_isAuthenticated, get_items, setItems_with, setItems, setLoading,
    localStorage_getItem, localStorage_setItem, localStorage_removeItem,
    JSON_parse, JSON_stringify, console_error,
    with_auth, with_items, with_loading, with_stale, with_localStorage,
    with_server, with_net in *.

Ltac unfold_cart_ops :=
  unfold Cart.step, Cart.dispatch, Cart.body, Cart.addToCart,
    Cart.updateQuantity, Cart.removeFromCart, Cart.clearCart, Cart.syncCart,
    Cart.persist_effect, Cart.get_cart, Cart.delete_cart,
    Cart.delete_cart_item, Cart.post_cart_sync in *.

Ltac unfold_wishlist_ops :=
  unfold Wishlist.step, Wishlist.dispatch, Wishlist.body,
    Wishlist.toggleWishlist, Wishlist.addToWishlist,
    Wishlist.removeFromWishlist, Wishlist.clearWishlist,
    Wishlist.persist_effect, Wishlist.add_locally,
    Wishlist.get_wishlist, Wishlist.delete_wishlist,
    Wishlist.delete_wishlist_item, Wishlist.post_wishlist_sync in *.

Ltac unfold_loaded :=
  unfold after_load, after_failed_fetch, after_slot_read, after_fetch,
    after_local_load in *.

(** ** The outcome of a load *)

Lemma loadCart_result (w : Cart.World) :
  Cart.loadCart w = (Ok tt, after_load Cart.cart w).
Proof.
  destruct w as [a its l st slot [cat c] n].
  unfold Cart.loadCart, Cart.get_cart. unfold_loaded. unfold_runtime. simpl.
  destruct a; simpl.
  - destruct n as [|[|] n]; simpl.
    + destruct c; reflexivity.
    + destruct c; reflexivity.
    + destruct slot as [[v| |]|]; reflexivity.
  - destruct slot as [[v| |]|]; reflexivity.
Qed.

Lemma loadWishlist_result (w : Wishlist.World) :
  Wishlist.loadWishlist w = (Ok tt, after_load Wishlist.wishlist w).
Proof.
  destruct w as [a its l st slot [cat c] n].
  unfold Wishlist.loadWishlist, Wishlist.get_wishlist.
  unfold_loaded. unfold_runtime. simpl.
  destruct a; simpl.
  - destruct n as [|[|] n]; simpl.
    + destruct c; reflexivity.
    + destruct c; reflexivity.
    + destruct slot as [[v| |]|]; reflexivity.
  - destruct slot as [[v| |]|]; reflexivity.
Qed.

(** Case analysis on whatever the goal still branches on, innermost
    scrutinee first. *)
Ltac split_goal :=
  match goal with
  | |- context [match ?x with _ => _ end] =>
      lazymatch x with
      | context [match _ with _ => _ end] => fail
      | _ => destruct x
      end
  end.

Ltac explore :=
  repeat first
    [ progress simpl
    | rewrite loadWishlist_result
    | rewrite loadCart_result
    | progress unfold_loaded
    | split_goal ].

(** Evaluation along one path, [tac] rewriting with the facts that
    decide the branches. *)
Ltac evaluate_with tac :=
  repeat first
    [ progress simpl
    | progress tac
    | rewrite loadWishlist_result
    | rewrite loadCart_result
    | progress unfold_loaded ].

Lemma reaches_one_cases {T B : Type} (w : World T B) :
  reaches 1 w -> net w = [] \/ exists rest, net w = true :: rest.
Proof.
  unfold reaches. destruct (net w) as [|[|] rest]; simpl; intros H; eauto.
  inversion H; discriminate.
Qed.

Lemma reaches_two_cases {T B : Type} (w : World T B) :
  reaches 2 w ->
  net w = [] \/ net w = [true] \/ exists rest, net w = true :: true :: rest.
Proof.
  unfold reaches. destruct (net w) as [|[|] [|[|] rest]]; simpl; intros H; eauto;
    exfalso;
    repeat match goal with
           | F : Forall _ (_ :: _) |- _ => inversion F; clear F; subst
           end; discriminate.
Qed.

(** ** C1: the merge at login *)

(** When the fetch is answered, an authenticated [loadCart] ends the same
    way whatever the slot held: the slot is overwritten (line 45) before
    it is read back (line 49). *)
Lemma authenticated_load_discards_slot
    (w : Cart.World) (slot : option (Text CartItem)) :
  isAuthenticated w = true ->
  reaches 1 w ->
  Cart.step (with_localStorage slot w) Cart.Load = Cart.step w Cart.Load.
Proof.
  intros Ha Hn. apply reaches_one_cases in Hn.
  destruct w as [a its l st old b n]; simpl in Ha, Hn; subst a.
  destruct Hn as [->|[rest ->]];
    unfold_cart_ops; unfold_runtime; evaluate_with idtac; reflexivity.
Qed.

(** With an empty remote cart the snapshot and the slot end up empty and
    nothing is pushed to the backend. *)
Lemma loadCart_never_merges (w : Cart.World) :
  isAuthenticated w = true ->
  reaches 1 w ->
  Cart.cart (server w) = [] ->
  let w' := Cart.step w Cart.Load in
  items w' = [] /\ localStorage w' = Some (Stringified []) /\ server w' = server w.
Proof.
  intros Ha Hn Hc. apply reaches_one_cases in Hn.
  destruct w as [a its l st slot [cat c] n]; simpl in Ha, Hn, Hc; subst a c.
  destruct Hn as [->|[rest ->]];
    unfold_cart_ops; unfold_runtime; evaluate_with idtac; auto.
Qed.

(** C1 (the code departs from the specification): after the anonymous
    session [add(A,2)], [add(B,1)], logging in against an empty remote
    cart leaves the canonical snapshot empty, the slot holding the empty
    list and the remote cart empty, where the specification expects the
    two entries in the snapshot and in the remote store; the wishlist
    does the same. *)
Theorem login_with_empty_remote_loses_local_entries :
  items anonymous_cart = [mkCartItem productA 2; mkCartItem productB 1] /\
  localStorage anonymous_cart = Some (Stringified (items anonymous_cart)) /\
  Cart.cart (server anonymous_cart) = [] /\
  (let w' := Cart.step anonymous_cart Cart.Login in
   isAuthenticated w' = true /\ items w' = [] /\
   localStorage w' = Some (Stringified []) /\ Cart.cart (server w') = []) /\
  items anonymous_wishlist = [productA; productB] /\
  localStorage anonymous_wishlist = Some (Stringified (items anonymous_wishlist)) /\
  (let w' := Wishlist.step anonymous_wishlist Wishlist.Login in
   isAuthenticated w' = true /\ items w' = [] /\
   localStorage w' = Some (Stringified []) /\ Wishlist.wishlist (server w') = []).
Proof. vm_compute. repeat split. Qed.

(** ** C2: the anonymous cart keeps its entries unique and positive *)

Section LocalUpdaters.
Variable pid : string.

Lemma references_of_requantified (f : CartItem -> Z) (its : list CartItem) :
  product_references
    (map (fun item =>
            if Cart.same_id pid item then mkCartItem (product item) (f item)
            else item) its)
  = product_references its.
Proof.
  induction its as [|e r IH]; simpl; [reflexivity|].
  rewrite IH. destruct (Cart.same_id pid e); reflexivity.
Qed.

Lemma find_none_not_referenced (its : list CartItem) :
  find (Cart.same_id pid) its = None -> ~ In pid (product_references its).
Proof.
  induction its as [|e r IH]; simpl; [tauto|].
  unfold Cart.same_id at 1.
  destruct (String.eqb_spec (id (product e)) pid) as [E|E]; [discriminate|].
  intros H [F|F]; [congruence | exact (IH H F)].
Qed.

Lemma references_of_remove (its : list CartItem) :
  forall r, In r (product_references (Cart.remove_locally pid its)) ->
            In r (product_references its).
Proof.
  induction its as [|e t IH]; simpl; [tauto|].
  intros r. destruct (Cart.same_id pid e); simpl; intuition.
Qed.

Lemma remove_keeps_unique (its : list CartItem) :
  unique_products its -> unique_products (Cart.remove_locally pid its).
Proof.
  unfold unique_products.
  induction its as [|e t IH]; simpl; intros H; [constructor|].
  inversion H as [|x l Hx Hl]; subst.
  destruct (Cart.same_id pid e); simpl; [auto|].
  constructor; [|auto].
  intros F. apply Hx. now apply references_of_remove.
Qed.

Lemma remove_keeps_positive (its : list CartItem) :
  positive_quantities its -> positive_quantities (Cart.remove_locally pid its).
Proof.
  unfold positive_quantities, Cart.remove_locally.
  rewrite !Forall_forall. intros H e He.
  apply filter_In in He. apply H, He.
Qed.

Lemma requantified_positive (f : CartItem -> Z) (its : list CartItem) :
  (forall item, 0 < quantity item -> 0 < f item) ->
  positive_quantities its ->
  positive_quantities
    (map (fun item =>
            if Cart.same_id pid item then mkCartItem (product item) (f item)
            else item) its).
Proof.
  intros Hf. unfold positive_quantities.
  induction 1 as [|e r He Hr IH]; simpl; constructor; auto.
  destruct (Cart.same_id pid e); simpl; auto.
Qed.
End LocalUpdaters.

Lemma add_keeps_unique (prod : Product) (qty : Z) (its : list CartItem) :
  unique_products its -> unique_products (Cart.add_locally prod qty its).
Proof.
  unfold unique_products, Cart.add_locally. intros H.
  destruct (find (Cart.same_id (id prod)) its) eqn:E.
  - now rewrite references_of_requantified.
  - unfold product_references. rewrite map_app. simpl.
    apply NoDup_app; [exact H | repeat constructor; simpl; tauto |].
    intros r Hr [<-|[]]. now apply (find_none_not_referenced _ _ E).
Qed.

Lemma add_keeps_positive (prod : Product) (qty : Z) (its : list CartItem) :
  1 <= qty -> positive_quantities its ->
  positive_quantities (Cart.add_locally prod qty its).
Proof.
  intros Hq H. unfold Cart.add_locally.
  destruct (find (Cart.same_id (id prod)) its).
  - apply requantified_positive; [|exact H].
    intros item Hi. apply round_positive. lia.
  - apply Forall_app; split; [exact H|]. repeat constructor. simpl. lia.
Qed.

(** What an anonymous mutation does to the world. *)
Lemma anonymous_step (w : Cart.World) (op : Cart.Op) :
  isAuthenticated w = false ->
  anonymous_mutation op ->
  isAuthenticated (Cart.step w op) = false /\
  items (Cart.step w op) =
    match op with
    | Cart.Add prod qty => Cart.add_locally prod qty (items w)
    | Cart.Remove productId => Cart.remove_locally productId (items w)
    | Cart.Update productId qty =>
        if qty <=? 0 then Cart.remove_locally productId (items w)
        else Cart.update_locally productId qty (items w)
    | _ => items w
    end.
Proof.
  destruct w as [a its l st slot b n]; simpl. intros -> Hop.
  destruct op; simpl in Hop; try contradiction;
    unfold_cart_ops; unfold_runtime; simpl; auto.
  destruct (qty <=? 0); simpl; auto.
Qed.

Lemma anonymous_step_unique (w : Cart.World) (op : Cart.Op) :
  isAuthenticated w = false ->
  anonymous_mutation op ->
  unique_products (items w) ->
  unique_products (items (Cart.step w op)).
Proof.
  intros Ha Hop Hu.
  destruct (anonymous_step w op Ha Hop) as [_ ->].
  destruct op; simpl in Hop; try contradiction.
  - now apply add_keeps_unique.
  - now apply remove_keeps_unique.
  - destruct (qty <=? 0); [now apply remove_keeps_unique|].
    unfold unique_products, Cart.update_locally.
    now rewrite (references_of_requantified productId (fun _ => qty)).
Qed.

Lemma anonymous_step_positive (w : Cart.World) (op : Cart.Op) :
  isAuthenticated w = false ->
  anonymous_op op ->
  positive_quantities (items w) ->
  positive_quantities (items (Cart.step w op)).
Proof.
  intros Ha Hop Hp.
  assert (Hm : anonymous_mutation op) by (destruct op; simpl in *; tauto).
  destruct (anonymous_step w op Ha Hm) as [_ ->].
  destruct op; simpl in Hop; try contradiction.
  - now apply add_keeps_positive.
  - now apply remove_keeps_positive.
  - destruct (Z.leb_spec qty 0); [now apply remove_keeps_positive|].
    apply (requantified_positive productId (fun _ => qty)); auto.
Qed.

(** Uniqueness alone needs no bound on the quantities added. *)
Lemma anonymous_cart_unique (ops : list Cart.Op) (w : Cart.World) :
  isAuthenticated w = false ->
  unique_products (items w) ->
  Forall anonymous_mutation ops ->
  unique_products (items (Cart.run ops w)).
Proof.
  intros Ha Hu Hops. revert w Ha Hu.
  induction Hops as [|op ops Hop Hops IH]; intros w Ha Hu; simpl; [exact Hu|].
  apply IH.
  - now apply anonymous_step.
  - now apply anonymous_step_unique.
Qed.

(** C2 (as amended): starting unauthenticated from an empty snapshot, any
    sequence of add / remove / updateQuantity operations whose adds carry
    a quantity of at least one leaves a snapshot with pairwise distinct
    product references and strictly positive quantities. *)
Theorem anonymous_cart_unique_and_positive (ops : list Cart.Op) (w : Cart.World) :
  isAuthenticated w = false ->
  items w = [] ->
  Forall anonymous_op ops ->
  unique_products (items (Cart.run ops w)) /\
  positive_quantities (items (Cart.run ops w)).
Proof.
  intros Ha Hi Hops.
  assert (Hinv : unique_products (items w) /\ positive_quantities (items w)).
  { rewrite Hi. split; constructor. }
  clear Hi. revert w Ha Hinv.
  induction Hops as [|op ops Hop Hops IH]; intros w Ha [Hu Hp]; simpl; [tauto|].
  assert (Hm : anonymous_mutation op) by (destruct op; simpl in *; tauto).
  apply IH.
  - now apply anonymous_step.
  - split; [now apply anonymous_step_unique | now apply anonymous_step_positive].
Qed.

Lemma anonymous_cart_unique_and_positive_witness :
  unique_products (items anonymous_cart) /\
  positive_quantities (items anonymous_cart).
Proof.
  apply (anonymous_cart_unique_and_positive
           [Cart.Add productA 2; Cart.Add productB 1]
           (Cart.mount None (Cart.mkBackend shop []) [])).
  - reflexivity.
  - reflexivity.
  - repeat constructor; simpl; lia.
Defined.

(** C2 (as stated, refuted): the anonymous session [add(productA, 0)]
    from the empty snapshot leaves an entry whose quantity is [0]. *)
Lemma anonymous_add_of_zero_is_kept :
  let w := Cart.mount None (Cart.mkBackend shop []) [] in
  isAuthenticated w = false /\ items w = [] /\
  items (Cart.run [Cart.Add productA 0] w) = [mkCartItem productA 0] /\
  ~ positive_quantities (items (Cart.run [Cart.Add productA 0] w)).
Proof.
  vm_compute. repeat split; try reflexivity.
  intros H. inversion H as [|x l Hx Hl]; subst. discriminate Hx.
Qed.

(** ** C3: adding to the wishlist twice *)

Lemma lookup_has_id (pid : string) (ps : list Product) (p : Product) :
  Wishlist.lookup pid ps = Some p -> Wishlist.same_id pid p = true.
Proof. intros H. apply find_some in H. apply H. Qed.

Lemma same_id_refl (prod : Product) : Wishlist.same_id (id prod) prod = true.
Proof. apply String.eqb_refl. Qed.

Lemma present_after_append (pid : string) (l : list Product) (p : Product) :
  Wishlist.same_id pid p = true ->
  existsb (Wishlist.same_id pid) (l ++ [p]) = true.
Proof.
  intros H. rewrite existsb_app. simpl. rewrite H.
  apply orb_true_iff. right. reflexivity.
Qed.

(** Unauthenticated: the second call finds the product and returns the
    same array, so nothing at all changes. *)
Lemma add_anonymous_twice (prod : Product) (w : Wishlist.World) :
  isAuthenticated w = false ->
  Wishlist.step (Wishlist.step w (Wishlist.Add prod)) (Wishlist.Add prod)
  = Wishlist.step w (Wishlist.Add prod).
Proof.
  destruct w as [a its l st slot b n]; simpl. intros ->.
  destruct st; destruct (existsb (Wishlist.same_id (id prod)) its) eqn:E;
  unfold_wishlist_ops; unfold_runtime;
  evaluate_with ltac:(rewrite ?E, ?present_after_append by apply same_id_refl);
  reflexivity.
Qed.

(** Authenticated, first call answered: either the reload has brought
    snapshot, slot and remote list into agreement, or the backend does
    not know the product and the local fallback has inserted it. *)
Lemma add_first (prod : Product) (w : Wishlist.World) :
  isAuthenticated w = true ->
  reaches 2 w ->
  let w' := Wishlist.step w (Wishlist.Add prod) in
  isAuthenticated w' = true /\
  existsb (Wishlist.same_id (id prod)) (items w') = true /\
  (settled w' \/ (unknown_product (id prod) w' /\ reaches 1 w')).
Proof.
  intros Ha Hn w'.
  assert (Hw' : exists v, w' = v /\
            isAuthenticated v = true /\
            existsb (Wishlist.same_id (id prod)) (items v) = true /\
            (settled v \/ (unknown_product (id prod) v /\ reaches 1 v)));
    [|destruct Hw' as (v & -> & Hv); exact Hv].
  subst w'. apply reaches_two_cases in Hn.
  destruct w as [a its l st slot [cat wl] n]; simpl in Ha, Hn; subst a.
  unfold reaches, settled, unknown_product.
  destruct (existsb (Wishlist.same_id (id prod)) wl) eqn:E1;
    [|destruct (Wishlist.lookup (id prod) cat) eqn:E2;
      [|destruct (existsb (Wishlist.same_id (id prod)) its) eqn:E3]];
  destruct Hn as [->|[->|[rest ->]]]; destruct st;
  (eexists; split;
   [ unfold_wishlist_ops; unfold_runtime; unfold Wishlist.post_wishlist_item;
     evaluate_with ltac:(rewrite ?E1, ?E2, ?E3); reflexivity
   | simpl; repeat split;
     eauto using present_after_append, lookup_has_id, same_id_refl;
     solve [ left; split; reflexivity
           | right; repeat split; auto; repeat constructor ] ]).
Qed.

(** The second call on a settled wishlist: a 409 and a reload, a failed
    reload that reads the slot, or a failed request and a fallback that
    finds the product; the snapshot is the same each time. *)
Lemma add_when_settled (prod : Product) (w : Wishlist.World) :
  isAuthenticated w = true ->
  settled w ->
  existsb (Wishlist.same_id (id prod)) (items w) = true ->
  let w' := Wishlist.step w (Wishlist.Add prod) in
  items w' = items w /\ localStorage w' = localStorage w /\ server w' = server w.
Proof.
  destruct w as [a its l st slot [cat wl] n]; unfold settled; simpl.
  intros -> [-> ->] Hin.
  destruct st; destruct n as [|[|] [|[|] n]];
  unfold_wishlist_ops; unfold_runtime; unfold Wishlist.post_wishlist_item;
  evaluate_with ltac:(rewrite ?Hin);
  destruct its; simpl; auto; discriminate.
Qed.

Lemma add_when_unknown (prod : Product) (w : Wishlist.World) :
  isAuthenticated w = true ->
  reaches 1 w ->
  unknown_product (id prod) w ->
  existsb (Wishlist.same_id (id prod)) (items w) = true ->
  let w' := Wishlist.step w (Wishlist.Add prod) in
  items w' = items w /\ localStorage w' = localStorage w /\ server w' = server w.
Proof.
  intros Ha Hn. apply reaches_one_cases in Hn.
  destruct w as [a its l st slot [cat wl] n]; simpl in Ha, Hn; subst a.
  unfold unknown_product; simpl. intros [E1 E2] E3.
  destruct st; destruct Hn as [->|[rest ->]];
  unfold_wishlist_ops; unfold_runtime; unfold Wishlist.post_wishlist_item;
  evaluate_with ltac:(rewrite ?E1, ?E2, ?E3); auto.
Qed.

(** Both requests lost: the fallback inserts once. *)
Lemma add_degraded_twice (prod : Product) (w : Wishlist.World) :
  isAuthenticated w = true ->
  fails 2 w ->
  let once := Wishlist.step w (Wishlist.Add prod) in
  let twice := Wishlist.step once (Wishlist.Add prod) in
  items twice = items once /\
  localStorage twice = localStorage once /\
  server twice = server once.
Proof.
  destruct w as [a its l st slot b n]; simpl.
  intros -> [rest Hn]. simpl in Hn; subst n.
  destruct st; destruct (existsb (Wishlist.same_id (id prod)) its) eqn:E;
  unfold_wishlist_ops; unfold_runtime;
  evaluate_with ltac:(rewrite ?E, ?present_after_append by apply same_id_refl);
  auto.
Qed.

(** C3 (as amended): calling [addToWishlist] twice in a row leaves the
    canonical snapshot (and the slot and the remote list) as one call
    does, for every product and starting world, under one of three
    conditions: the visitor is unauthenticated; the first call's two
    requests are answered, a second create being answered 409 and
    followed by a reload; or both create requests are lost. *)
Theorem wishlist_add_is_idempotent (prod : Product) (w : Wishlist.World) :
  isAuthenticated w = false \/ reaches 2 w \/ fails 2 w ->
  let once := Wishlist.step w (Wishlist.Add prod) in
  let twice := Wishlist.step once (Wishlist.Add prod) in
  items twice = items once /\
  localStorage twice = localStorage once /\
  server twice = server once.
Proof.
  intros H. simpl.
  destruct (isAuthenticated w) eqn:Ha.
  - destruct H as [H|[H|H]]; [discriminate| |].
    + destruct (add_first prod w Ha H) as (Ha' & Hin & [Hs | [Hu Hn]]).
      * now apply add_when_settled.
      * now apply add_when_unknown.
    + now apply add_degraded_twice.
  - rewrite (add_anonymous_twice prod w Ha). auto.
Qed.

Lemma wishlist_add_is_idempotent_witness :
  reaches 2 member_wishlist /\
  items (Wishlist.step member_wishlist (Wishlist.Add productA)) = [productB; productA] /\
  (let once := Wishlist.step member_wishlist (Wishlist.Add productA) in
   let twice := Wishlist.step once (Wishlist.Add productA) in
   items twice = items once /\
   localStorage twice = localStorage once /\
   server twice = server once).
Proof.
  assert (H : reaches 2 member_wishlist) by (unfold reaches; simpl; constructor).
  split; [exact H|]. split; [reflexivity|].
  apply (wishlist_add_is_idempotent productA member_wishlist).
  right; left; exact H.
Defined.

(** C3 (as stated, refuted): a customer whose remote wishlist holds
    [productB] signs in while the backend is out of reach, so that the
    snapshot stays empty; the create request of a first
    [addToWishlist(productA)] is lost as well and the fallback leaves
    [[productA]]; the second call's requests are answered, and its
    reload brings in the remote list: [[productB; productA]]. *)
Theorem wishlist_add_across_a_recovery :
  let remote := Wishlist.mkBackend shop [productB] in
  let signed_in :=
    Wishlist.run [Wishlist.Login] (Wishlist.mount None remote [false; false]) in
  let once := Wishlist.step signed_in (Wishlist.Add productA) in
  let twice := Wishlist.step once (Wishlist.Add productA) in
  signed_in = recovering_wishlist /\
  isAuthenticated signed_in = true /\
  items once = [productA] /\
  items twice = [productB; productA] /\
  items twice <> items once.
Proof.
  vm_compute. repeat split; try reflexivity. discriminate.
Qed.

(** ** C4: clearing *)

(** C4: [clearCart] and [clearWishlist] leave an empty canonical
    snapshot in every world, whatever the authentication state and
    whether or not the delete-all request succeeds. *)
Theorem clear_always_empties (wc : Cart.World) (ww : Wishlist.World) :
  items (Cart.step wc Cart.Clear) = [] /\
  items (Wishlist.step ww Wishlist.Clear) = [].
Proof.
  split.
  - destruct wc as [a its l st slot b n].
    unfold_cart_ops; unfold_runtime. explore; reflexivity.
  - destruct ww as [a its l st slot b n].
    unfold_wishlist_ops; unfold_runtime. explore; reflexivity.
Qed.

(** ** C5: removing while the delete request fails *)

Lemma cart_removed_is_absent (productId : string) (its : list CartItem) :
  Cart.isInCart productId (Cart.remove_locally productId its) = false.
Proof.
  unfold Cart.isInCart, Cart.remove_locally.
  induction its as [|e r IH]; simpl; [reflexivity|].
  destruct (Cart.same_id productId e) eqn:Ee; simpl; [exact IH|].
  now rewrite Ee.
Qed.

Lemma wishlist_removed_is_absent (productId : string) (its : list Product) :
  Wishlist.isInWishlist productId (Wishlist.remove_locally productId its) = false.
Proof.
  unfold Wishlist.isInWishlist, Wishlist.remove_locally.
  induction its as [|e r IH]; simpl; [reflexivity|].
  destruct (Wishlist.same_id productId e) eqn:Ee; simpl; [exact IH|].
  now rewrite Ee.
Qed.

(** The cart's fallback filters the snapshot, and the commit mirrors the
    result into the slot. *)
Lemma cart_remove_fallback (productId : string) (w : Cart.World) :
  isAuthenticated w = true ->
  request_fails (Cart.delete_cart_item productId) w ->
  items (Cart.step w (Cart.Remove productId))
  = Cart.remove_locally productId (items w) /\
  localStorage (Cart.step w (Cart.Remove productId))
  = Some (Stringified (Cart.remove_locally productId (items w))).
Proof.
  destruct w as [a its l st slot b n]. simpl. intros -> [e F].
  unfold request in F; simpl in F.
  destruct n as [|[|] n]; simpl in F; try discriminate.
  unfold_cart_ops; unfold_runtime; split; reflexivity.
Qed.

(** The wishlist's fallback filters the snapshot and touches nothing else. *)
Lemma wishlist_remove_fallback (productId : string) (w : Wishlist.World) :
  isAuthenticated w = true ->
  request_fails (Wishlist.delete_wishlist_item productId) w ->
  items (Wishlist.step w (Wishlist.Remove productId))
  = Wishlist.remove_locally productId (items w) /\
  only_items_changed w (Wishlist.step w (Wishlist.Remove productId)).
Proof.
  destruct w as [a its l st slot b n]. simpl. intros -> [e F].
  unfold request in F; simpl in F.
  destruct n as [|[|] n]; simpl in F; try discriminate.
  unfold_wishlist_ops; unfold_runtime; unfold only_items_changed; simpl; auto.
Qed.

(** C5: while authenticated, if the delete request for a product fails,
    [removeFromCart] / [removeFromWishlist] still leave the previous
    snapshot with that product's entry filtered out. *)
Theorem failed_delete_falls_back_to_filter
    (productId : string) (wc : Cart.World) (ww : Wishlist.World) :
  isAuthenticated wc = true ->
  request_fails (Cart.delete_cart_item productId) wc ->
  isAuthenticated ww = true ->
  request_fails (Wishlist.delete_wishlist_item productId) ww ->
  (items (Cart.step wc (Cart.Remove productId))
     = filter (fun item => negb (Cart.same_id productId item)) (items wc) /\
   Cart.isInCart productId (items (Cart.step wc (Cart.Remove productId))) = false) /\
  (items (Wishlist.step ww (Wishlist.Remove productId))
     = filter (fun item => negb (Wishlist.same_id productId item)) (items ww) /\
   Wishlist.isInWishlist productId
     (items (Wishlist.step ww (Wishlist.Remove productId))) = false).
Proof.
  intros Hc Fc Hw Fw.
  destruct (cart_remove_fallback productId wc Hc Fc) as [-> _].
  destruct (wishlist_remove_fallback productId ww Hw Fw) as [-> _].
  repeat split.
  - apply cart_removed_is_absent.
  - apply wishlist_removed_is_absent.
Qed.

Lemma failed_delete_falls_back_to_filter_witness :
  items offline_cart = [mkCartItem productA 1] /\
  items (Cart.step offline_cart (Cart.Remove "A"%string)) = [] /\
  items (Wishlist.step offline_wishlist (Wishlist.Remove "A"%string)) = [].
Proof.
  split; [reflexivity|].
  assert (Fc : request_fails (Cart.delete_cart_item "A"%string) offline_cart)
    by (exists NetworkError; reflexivity).
  assert (Fw : request_fails (Wishlist.delete_wishlist_item "A"%string) offline_wishlist)
    by (exists NetworkError; reflexivity).
  destruct (failed_delete_falls_back_to_filter "A"%string offline_cart
              offline_wishlist eq_refl Fc eq_refl Fw) as [[Hc _] [Hw _]].
  split; [exact Hc | exact Hw].
Defined.

(** ** C6: a non-positive quantity removes *)

(** C6: for a quantity of zero or less, [updateQuantity] runs exactly
    [removeFromCart]: same outcome and same world, in every world. *)
Theorem nonpositive_update_is_remove
    (productId : string) (qty : Z) (w : Cart.World) :
  qty <= 0 ->
  Cart.dispatch (Cart.Update productId qty) w
  = Cart.dispatch (Cart.Remove productId) w.
Proof.
  intros H. unfold Cart.dispatch, Cart.body, Cart.updateQuantity.
  apply Z.leb_le in H. rewrite H. reflexivity.
Qed.

Lemma nonpositive_update_is_remove_witness :
  Cart.step anonymous_cart (Cart.Update "A"%string 0)
  = Cart.step anonymous_cart (Cart.Remove "A"%string) /\
  items (Cart.step anonymous_cart (Cart.Update "A"%string 0))
  = [mkCartItem productB 1].
Proof.
  split; [|reflexivity].
  unfold Cart.step, exec.
  rewrite (nonpositive_update_is_remove "A"%string 0 anonymous_cart); [reflexivity | lia].
Defined.

(** ** C7: totals *)

(** The left fold of the doubles' addition over non-negative quantities:
    it is the integers' sum as long as that stays within [2 ^ 53], and
    never falls back below [2 ^ 53] once the sum has passed it. *)
Lemma fold_quantities (its : list CartItem) (start : Z) :
  0 <= start ->
  nonnegative_quantities its ->
  (start + sum_of_quantities its <= 2 ^ 53 ->
   fold_left (fun total item => Number.add total (quantity item)) its start
   = start + sum_of_quantities its) /\
  (2 ^ 53 <= start + sum_of_quantities its ->
   2 ^ 53 <= fold_left (fun total item => Number.add total (quantity item))
               its start).
Proof.
  intros Hs Hn. revert start Hs.
  induction Hn as [|e r He Hr IH]; intros start Hs; simpl.
  - split; intros; lia.
  - assert (Hsum : 0 <= sum_of_quantities r).
    { clear IH. induction Hr as [|x l Hx Hl IHl]; simpl; lia. }
    destruct (Z_le_gt_dec (start + quantity e) (2 ^ 53)) as [L|G].
    + rewrite add_exact by (rewrite Z.abs_eq; lia).
      destruct (IH (start + quantity e)) as [Hx Hg]; [lia|].
      split; intros H; [rewrite Hx by lia; lia | apply Hg; lia].
    + assert (B : 2 ^ 53 <= Number.add start (quantity e))
        by (apply round_lower; lia).
      destruct (IH (Number.add start (quantity e))) as [_ Hg]; [lia|].
      split; intros H; [lia | apply Hg; lia].
Qed.

Lemma total_in_range (its : list CartItem) :
  nonnegative_quantities its ->
  (sum_of_quantities its <= 2 ^ 53 ->
   Cart.getTotalItems its = sum_of_quantities its) /\
  (2 ^ 53 <= sum_of_quantities its -> 2 ^ 53 <= Cart.getTotalItems its).
Proof.
  intros Hn. unfold Cart.getTotalItems.
  destruct (fold_quantities its 0 (Z.le_refl 0) Hn) as [Hx Hg].
  split; intros H; [now rewrite Hx | now apply Hg].
Qed.

(** C7 (as amended): [getTotalItems] and [getTotalPrice] are pure
    lookups: they return their fold over the snapshot and leave the
    world as it was.  [getTotalItems] is the sum of the entries'
    quantities whenever these are non-negative and their sum is at most
    [2 ^ 53].  [getTotalPrice] is [0] for the empty snapshot and, entry
    after entry in snapshot order, the total so far plus price times
    quantity, sum and product being the doubles'. *)
Theorem totals_accumulate_in_doubles (w : Cart.World) :
  Cart.call_getTotalItems w = (Ok (Cart.getTotalItems (items w)), w) /\
  Cart.call_getTotalPrice w = (Ok (Cart.getTotalPrice (items w)), w) /\
  (nonnegative_quantities (items w) ->
   sum_of_quantities (items w) <= 2 ^ 53 ->
   Cart.getTotalItems (items w) = sum_of_quantities (items w)) /\
  Cart.getTotalPrice [] = 0%float /\
  (forall (its : list CartItem) (entry : CartItem),
      Cart.getTotalPrice (its ++ [entry])
      = (Cart.getTotalPrice its
         + price (product entry) * Number.to_double (quantity entry))%float).
Proof.
  split; [reflexivity|]. split; [reflexivity|]. split.
  - intros Hn Hs. now apply total_in_range.
  - split; [reflexivity|]. intros its entry.
    unfold Cart.getTotalPrice. now rewrite fold_left_app.
Qed.

Lemma totals_accumulate_in_doubles_witness :
  Cart.getTotalItems (items anonymous_cart) = 3.
Proof.
  destruct (totals_accumulate_in_doubles anonymous_cart) as (_ & _ & H & _).
  rewrite H.
  - reflexivity.
  - repeat constructor; simpl; lia.
  - simpl. lia.
Defined.

(** C7 (as stated, refuted): the totals are not the sums of the numbers
    in the snapshot.  For two of [productA] at 19.99 and one of
    [productB] at 24.50, [getTotalPrice] returns 64.47999999999999,
    which is neither the double 64.48 nor the sum of the two amounts;
    three entries priced 0.1, 0.2 and 0.3 total differently in reverse
    order; and one more item on top of [2 ^ 53] leaves [getTotalItems]
    at [2 ^ 53]. *)
Theorem totals_miss_the_exact_sums :
  let cart := [mkCartItem productA 2; mkCartItem productB 1] in
  let coins :=
    [mkCartItem (mkProduct "X"%string "Pin"%string 0.1%float) 1;
     mkCartItem (mkProduct "Y"%string "Clip"%string 0.2%float) 1;
     mkCartItem (mkProduct "Z"%string "Band"%string 0.3%float) 1] in
  let crowd := [mkCartItem productA (2 ^ 53); mkCartItem productB 1] in
  items anonymous_cart = cart /\
  Cart.getTotalPrice cart = 64.47999999999999%float /\
  PrimFloat.eqb (Cart.getTotalPrice cart) 64.48%float = false /\
  ~ Qeq (Number.value (Cart.getTotalPrice cart)) (sum_of_amounts cart) /\
  PrimFloat.eqb (Cart.getTotalPrice (rev coins)) (Cart.getTotalPrice coins)
  = false /\
  Cart.getTotalItems crowd = 2 ^ 53 /\
  sum_of_quantities crowd = 2 ^ 53 + 1.
Proof.
  simpl. split; [reflexivity|].
  split; [vm_compute; reflexivity|].
  split; [vm_compute; reflexivity|].
  split; [vm_compute; discriminate|].
  split; [vm_compute; reflexivity|].
  split; vm_compute; reflexivity.
Qed.

(** ** C8: nothing is thrown past an operation *)

Section NeverThrows.
Context {T B : Type}.

Lemma ret_never_throws {A : Type} (a : A) :
  never_throws (T:=T) (B:=B) (ret a).
Proof. intros w. now exists a, w. Qed.

Lemma bind_never_throws {A C : Type} (m : M T B A) (k : A -> M T B C) :
  never_throws m -> (forall a, never_throws (k a)) -> never_throws (bind m k).
Proof.
  intros Hm Hk w. unfold bind.
  destruct (Hm w) as (a & w' & ->). apply Hk.
Qed.

(** A [try] is as safe as its handler, whatever its body does. *)
Lemma try_catch_never_throws {A : Type}
    (body : M T B A) (handler : exn -> M T B A) :
  (forall e, never_throws (handler e)) -> never_throws (try_catch body handler).
Proof.
  intros Hh w. unfold try_catch.
  destruct (body w) as [[a|e] w']; [now exists a, w' | apply Hh].
Qed.

Lemma try_catch_finally_never_throws {A : Type}
    (body : M T B A) (handler : exn -> M T B A) (fin : M T B unit) :
  (forall e, never_throws (handler e)) -> never_throws fin ->
  never_throws (try_catch_finally body handler fin).
Proof.
  intros Hh Hf w. unfold try_catch_finally.
  destruct (try_catch_never_throws body handler Hh w) as (a & w' & ->).
  destruct (Hf w') as ([] & w'' & ->). now exists a, w''.
Qed.

Lemma get_isAuthenticated_never_throws :
  never_throws (T:=T) (B:=B) get_isAuthenticated.
Proof. intros w. now eexists _, _. Qed.

Lemma get_items_never_throws : never_throws (T:=T) (B:=B) get_items.
Proof. intros w. now eexists _, _. Qed.

Lemma setItems_never_throws (v : list T) :
  never_throws (T:=T) (B:=B) (setItems v).
Proof. intros w. now eexists _, _. Qed.

Lemma setItems_with_never_throws (f : list T -> list T) :
  never_throws (T:=T) (B:=B) (setItems_with f).
Proof. intros w. now eexists _, _. Qed.

Lemma setLoading_never_throws (l : bool) :
  never_throws (T:=T) (B:=B) (setLoading l).
Proof. intros w. now eexists _, _. Qed.

Lemma getItem_never_throws : never_throws (T:=T) (B:=B) localStorage_getItem.
Proof. intros w. now eexists _, _. Qed.

Lemma setItem_never_throws (t : Text T) :
  never_throws (T:=T) (B:=B) (localStorage_setItem t).
Proof. intros w. now eexists _, _. Qed.

Lemma removeItem_never_throws :
  never_throws (T:=T) (B:=B) localStorage_removeItem.
Proof. intros w. now eexists _, _. Qed.

Lemma console_error_never_throws : never_throws (T:=T) (B:=B) console_error.
Proof. intros w. now eexists _, _. Qed.

Lemma with_auth_never_throws (a : bool) :
  never_throws (T:=T) (B:=B) (fun w => (Ok tt, with_auth a w)).
Proof. intros w. now eexists _, _. Qed.
End NeverThrows.

Create HintDb caught.
#[export] Hint Resolve ret_never_throws get_isAuthenticated_never_throws
  get_items_never_throws setItems_never_throws setItems_with_never_throws
  setLoading_never_throws getItem_never_throws setItem_never_throws
  removeItem_never_throws console_error_never_throws
  with_auth_never_throws : caught.

(** Walking down a program: sequencing needs both parts safe, a [try]
    only its handler (and its [finally]). A request outside every [try]
    would leave a goal behind. *)
Ltac caught :=
  repeat first
    [ solve [auto with caught]
    | apply try_catch_finally_never_throws
    | apply try_catch_never_throws
    | apply bind_never_throws
    | match goal with
      | |- forall _, _ => intro
      | |- never_throws (if ?b then _ else _) => destruct b
      | |- never_throws (match ?x with _ => _ end) => destruct x
      end ].

Lemma loadCart_never_throws : never_throws Cart.loadCart.
Proof. unfold Cart.loadCart. caught. Qed.

Lemma loadWishlist_never_throws : never_throws Wishlist.loadWishlist.
Proof. unfold Wishlist.loadWishlist. caught. Qed.

Lemma cart_persist_never_throws : never_throws Cart.persist_effect.
Proof.
  intros w. unfold Cart.persist_effect. destruct (stale w); now eexists _, _.
Qed.

Lemma wishlist_persist_never_throws : never_throws Wishlist.persist_effect.
Proof.
  intros w. unfold Wishlist.persist_effect.
  destruct (stale w); [destruct (negb (isAuthenticated w))|]; now eexists _, _.
Qed.

Lemma wishlist_add_locally_never_throws (prod : Product) :
  never_throws (Wishlist.add_locally prod).
Proof.
  intros w. unfold Wishlist.add_locally.
  destruct (existsb _ _); now eexists _, _.
Qed.

#[export] Hint Resolve loadCart_never_throws loadWishlist_never_throws
  cart_persist_never_throws wishlist_persist_never_throws
  wishlist_add_locally_never_throws : caught.

Lemma cart_dispatch_never_throws (op : Cart.Op) : never_throws (Cart.dispatch op).
Proof.
  unfold Cart.dispatch. apply bind_never_throws; [|auto with caught].
  destruct op; simpl;
    unfold Cart.addToCart, Cart.updateQuantity, Cart.removeFromCart,
      Cart.clearCart, Cart.syncCart; caught.
Qed.

Lemma wishlist_dispatch_never_throws (op : Wishlist.Op) :
  never_throws (Wishlist.dispatch op).
Proof.
  unfold Wishlist.dispatch. apply bind_never_throws; [|auto with caught].
  destruct op; simpl;
    unfold Wishlist.toggleWishlist, Wishlist.addToWishlist,
      Wishlist.removeFromWishlist, Wishlist.clearWishlist; caught.
Qed.

(** A slot that does not parse and a slot holding the empty list lead
    every operation to the same snapshot. *)
Lemma cart_malformed_slot_reads_as_empty (op : Cart.Op) (w : Cart.World) :
  items (Cart.step (with_localStorage (Some Malformed) w) op)
  = items (Cart.step (with_localStorage (Some (Stringified [])) w) op).
Proof.
  destruct w as [a its l st slot b n].
  destruct op; unfold_cart_ops; unfold_runtime; destruct a, st;
    explore; reflexivity.
Qed.

Lemma wishlist_malformed_slot_reads_as_empty
    (op : Wishlist.Op) (w : Wishlist.World) :
  items (Wishlist.step (with_localStorage (Some Malformed) w) op)
  = items (Wishlist.step (with_localStorage (Some (Stringified [])) w) op).
Proof.
  destruct w as [a its l st slot b n].
  destruct op; unfold_wishlist_ops; unfold_runtime; destruct a, st;
    explore; reflexivity.
Qed.

(** Where a load does parse the slot (anonymous, or the fetch failed),
    a slot that does not parse gives the empty snapshot. *)
Lemma load_of_malformed_slot_is_empty {T B : Type}
    (remote : B -> list T) (w : World T B) (rest : list bool) :
  items (after_load remote (with_auth false (with_localStorage (Some Malformed) w))) = [] /\
  items (after_load remote
           (with_auth true (with_net (false :: rest)
              (with_localStorage (Some Malformed) w)))) = [].
Proof. destruct w; split; reflexivity. Qed.

(** C8 (as amended): with a slot that is absent, empty, rejected by
    [JSON.parse] or the serialization of an array of entries, every
    operation of the two providers, followed by its commit, returns
    normally from every world (every input, transport script and
    backend); the readers return a value and leave the world alone; and
    a slot that [JSON.parse] rejects is read as the empty collection:
    mounting on it, and loading it anonymously or after a failed fetch,
    give the empty snapshot, and no operation tells it from a slot
    holding the empty list. *)
Theorem operations_never_throw :
  (forall op, never_throws (Cart.dispatch op)) /\
  (forall op, never_throws (Wishlist.dispatch op)) /\
  (forall productId w,
      Cart.call_isInCart productId w = (Ok (Cart.isInCart productId (items w)), w) /\
      Cart.call_getTotalItems w = (Ok (Cart.getTotalItems (items w)), w) /\
      Cart.call_getTotalPrice w = (Ok (Cart.getTotalPrice (items w)), w)) /\
  (forall productId w,
      Wishlist.call_isInWishlist productId w
      = (Ok (Wishlist.isInWishlist productId (items w)), w)) /\
  (forall bc bw n, items (Cart.mount (Some Malformed) bc n) = [] /\
                   items (Wishlist.mount (Some Malformed) bw n) = []) /\
  (forall (w : Cart.World) rest,
      items (Cart.step (with_auth false (with_localStorage (Some Malformed) w))
                       Cart.Load) = [] /\
      items (Cart.step (with_auth true (with_net (false :: rest)
                          (with_localStorage (Some Malformed) w)))
                       Cart.Load) = []) /\
  (forall (w : Wishlist.World) rest,
      items (Wishlist.step (with_auth false (with_localStorage (Some Malformed) w))
                           Wishlist.Load) = [] /\
      items (Wishlist.step (with_auth true (with_net (false :: rest)
                              (with_localStorage (Some Malformed) w)))
                           Wishlist.Load) = []) /\
  (forall op w,
      items (Cart.step (with_localStorage (Some Malformed) w) op)
      = items (Cart.step (with_localStorage (Some (Stringified [])) w) op)) /\
  (forall op w,
      items (Wishlist.step (with_localStorage (Some Malformed) w) op)
      = items (Wishlist.step (with_localStorage (Some (Stringified [])) w) op)).
Proof.
  split; [exact cart_dispatch_never_throws|].
  split; [exact wishlist_dispatch_never_throws|].
  split; [intros; repeat split; reflexivity|].
  split; [intros; reflexivity|].
  split.
  { intros bc bw n. unfold Cart.mount, Wishlist.mount, exec, bind.
    rewrite loadCart_result, loadWishlist_result. split; reflexivity. }
  split.
  { intros w rest. destruct w as [a its l st slot b n].
    unfold Cart.step, Cart.dispatch, Cart.body, exec, bind.
    rewrite !loadCart_result. split; reflexivity. }
  split.
  { intros w rest. destruct w as [a its l st slot b n].
    unfold Wishlist.step, Wishlist.dispatch, Wishlist.body, exec, bind.
    rewrite !loadWishlist_result. split; reflexivity. }
  split.
  - exact cart_malformed_slot_reads_as_empty.
  - exact wishlist_malformed_slot_reads_as_empty.
Qed.

(** On the slot texts of the declared type the untyped loads are the
    providers' own. *)
Lemma untyped_load_agrees {T B : Type} (t : Text T) (w : World T B) :
  Untyped.load_anonymous (Some (Untyped.Typed t))
  = Untyped.Array
      (items (after_local_load (with_localStorage (Some t) w))) /\
  Untyped.load_after_failed_fetch (Some (Untyped.Typed t))
    (Untyped.Array (items w))
  = Untyped.Array
      (items (after_slot_read (with_localStorage (Some t) w))).
Proof. destruct w, t; split; reflexivity. Qed.

(** C8 (as stated, refuted): a slot holding the text [null] (or any
    other JSON text that is not an array) is not a parse failure.  The
    anonymous load that mounting runs, and equally the load of a
    signed-in customer whose fetch fails, store the parsed value in
    [items]; from then on [getTotalItems], [getTotalPrice], [isInCart]
    and [isInWishlist] throw a [TypeError] to their caller, and so does
    the updater of an anonymous [addToCart]. *)
Theorem null_slot_breaks_the_readers :
  let cart : Untyped.Value CartItem :=
    Untyped.load_anonymous (Some Untyped.OtherJson) in
  let wishlist : Untyped.Value Product :=
    Untyped.load_anonymous (Some Untyped.OtherJson) in
  cart = Untyped.NotArray /\
  wishlist = Untyped.NotArray /\
  Untyped.load_after_failed_fetch (Some Untyped.OtherJson)
    (Untyped.Array [mkCartItem productA 1]) = Untyped.NotArray /\
  Untyped.getTotalItems cart = Throw TypeError /\
  Untyped.getTotalPrice cart = Throw TypeError /\
  Untyped.isInCart (id productA) cart = Throw TypeError /\
  Untyped.isInWishlist (id productA) wishlist = Throw TypeError /\
  Untyped.add_locally productA 1 cart = Throw TypeError.
Proof. repeat split; reflexivity. Qed.

(** ** C9: the cart's slot mirrors the snapshot *)

Lemma cart_mount_mirrors
    (slot : option (Text CartItem)) (b : Cart.Backend) (n : list bool) :
  stale (Cart.mount slot b n) = false /\ mirrors (Cart.mount slot b n).
Proof.
  unfold Cart.mount, mirrors. unfold_cart_ops. unfold_runtime.
  rewrite loadCart_result. unfold_loaded. simpl.
  destruct slot as [[v| |]|]; simpl; auto.
Qed.

(** Every operation, once committed, restores the mirror: whenever it
    sets the snapshot the persist effect is due, and any direct write to
    the slot comes after a [setItems]. *)
Lemma cart_step_mirrors (op : Cart.Op) (w : Cart.World) :
  stale w = false -> mirrors w ->
  stale (Cart.step w op) = false /\ mirrors (Cart.step w op).
Proof.
  intros Hs Hm.
  destruct w as [a its l st slot b n]. unfold mirrors in *.
  simpl in Hs, Hm. subst st slot.
  destruct op; unfold_cart_ops; unfold_runtime; destruct a; explore; auto.
Qed.

(** C9: from the mounted provider on, after every cart operation
    (loads, mutations in either authentication state with any transport
    outcome, fallbacks included, clears, syncs, logins and logouts) the
    cart's slot holds exactly the serialization of the canonical
    snapshot. *)
Theorem cart_slot_mirrors_snapshot
    (slot : option (Text CartItem)) (b : Cart.Backend) (n : list bool)
    (ops : list Cart.Op) :
  mirrors (Cart.run ops (Cart.mount slot b n)).
Proof.
  destruct (cart_mount_mirrors slot b n) as [Hs Hm].
  revert Hs Hm. generalize (Cart.mount slot b n).
  induction ops as [|op ops IH]; intros w Hs Hm; simpl; [exact Hm|].
  destruct (cart_step_mirrors op w Hs Hm). now apply IH.
Qed.

Example offline_cart_fallback_is_mirrored :
  let w := Cart.step offline_cart (Cart.Add productB 1) in
  items w = [mkCartItem productA 1; mkCartItem productB 1] /\
  localStorage w = Some (Stringified (items w)) /\
  server w = server offline_cart.
Proof. vm_compute. repeat split. Qed.

(** ** C10: the wishlist's slot while authenticated *)

Lemma wishlist_add_fallback (prod : Product) (w : Wishlist.World) :
  isAuthenticated w = true ->
  create_fails (id prod) w ->
  only_items_changed w (Wishlist.step w (Wishlist.Add prod)) /\
  items (Wishlist.step w (Wishlist.Add prod)) =
    if Wishlist.isInWishlist (id prod) (items w)
    then items w else items w ++ [prod].
Proof.
  destruct w as [a its l st slot [cat wl] n]. simpl. intros -> (e & F & C).
  unfold request, Wishlist.post_wishlist_item, Wishlist.isInWishlist in *;
    simpl in F.
  assert (H : exists v,
             Wishlist.step
               (mkWorld true its l st slot (Wishlist.mkBackend cat wl) n)
               (Wishlist.Add prod) = v /\
             (only_items_changed
                (mkWorld true its l st slot (Wishlist.mkBackend cat wl) n) v /\
              items v = if existsb (Wishlist.same_id (id prod)) its
                        then its else its ++ [prod]));
    [|destruct H as (v & -> & Hv); exact Hv].
  unfold only_items_changed.
  destruct (existsb (Wishlist.same_id (id prod)) its) eqn:E3;
  destruct (existsb (Wishlist.same_id (id prod)) wl) eqn:E1;
  destruct (Wishlist.lookup (id prod) cat) eqn:E2;
  destruct n as [|[|] n]; simpl in F; try discriminate;
  try (injection F as <-; discriminate C); destruct st;
  (eexists; split;
   [ unfold_wishlist_ops; unfold_runtime; unfold Wishlist.post_wishlist_item;
     evaluate_with ltac:(rewrite ?E1, ?E2, ?E3); reflexivity
   | simpl; auto 6 ]).
Qed.





(** The cart differs: its fallback is mirrored into the slot by the
    commit ([cart_remove_fallback]). *)
Example offline_cart_remove_is_mirrored :
  localStorage (Cart.step offline_cart (Cart.Remove "A"%string))
  = Some (Stringified []).
Proof. reflexivity. Qed.

(** * More of the code, proved *)

(** ** Loading, reloading and logging out *)

Lemma cart_run_mirrors
    (slot : option (Text CartItem)) (b : Cart.Backend) (n : list bool)
    (ops : list Cart.Op) :
  stale (Cart.run ops (Cart.mount slot b n)) = false /\
  mirrors (Cart.run ops (Cart.mount slot b n)).
Proof.
  generalize (cart_mount_mirrors slot b n).
  generalize (Cart.mount slot b n).
  induction ops as [|op ops IH]; intros w [Hs Hm]; simpl; [auto|].
  apply IH. now apply cart_step_mirrors.
Qed.

(** X1: an authenticated load whose fetch is answered makes the remote
    list the snapshot and the slot, whatever snapshot and slot were
    there, and sends nothing else; for the cart and for the wishlist. *)
Theorem answered_load_adopts_remote (wc : Cart.World) (ww : Wishlist.World) :
  isAuthenticated wc = true -> reaches 1 wc ->
  isAuthenticated ww = true -> reaches 1 ww ->
  (items (Cart.step wc Cart.Load) = Cart.cart (server wc) /\
   localStorage (Cart.step wc Cart.Load)
   = Some (Stringified (Cart.cart (server wc))) /\
   server (Cart.step wc Cart.Load) = server wc /\
   net (Cart.step wc Cart.Load) = tl (net wc)) /\
  (items (Wishlist.step ww Wishlist.Load) = Wishlist.wishlist (server ww) /\
   localStorage (Wishlist.step ww Wishlist.Load)
   = Some (Stringified (Wishlist.wishlist (server ww))) /\
   server (Wishlist.step ww Wishlist.Load) = server ww /\
   net (Wishlist.step ww Wishlist.Load) = tl (net ww)).
Proof.
  intros Hc Rc Hw Rw.
  apply reaches_one_cases in Rc. apply reaches_one_cases in Rw.
  destruct wc as [a its l st slot b n]; simpl in Hc, Rc; subst a.
  destruct ww as [a' its' l' st' slot' b' n']; simpl in Hw, Rw; subst a'.
  split.
  - destruct Rc as [->|[rest ->]];
      unfold_cart_ops; unfold_runtime; evaluate_with idtac; auto.
  - destruct Rw as [->|[rest ->]];
      unfold_wishlist_ops; unfold_runtime; evaluate_with idtac; auto.
Qed.

Lemma answered_load_adopts_remote_witness :
  items (Cart.step returning_cart Cart.Load) = [mkCartItem productA 1] /\
  items (Wishlist.step returning_wishlist Wishlist.Load) = [productB] /\
  localStorage (Wishlist.step returning_wishlist Wishlist.Load)
  = Some (Stringified [productB]).
Proof.
  assert (Rc : reaches 1 returning_cart) by (unfold reaches; simpl; constructor).
  assert (Rw : reaches 1 returning_wishlist)
    by (unfold reaches; simpl; constructor).
  destruct (answered_load_adopts_remote returning_cart returning_wishlist
              eq_refl Rc eq_refl Rw) as [[Hc _] [Hw [Hs _]]].
  split; [exact Hc|]. split; [exact Hw | exact Hs].
Defined.

(** X2: an authenticated load whose fetch fails reads the slot: its
    entries become the snapshot, a text that does not parse gives the
    empty snapshot, and an absent or empty slot leaves the snapshot as
    it was; the backend is not touched. *)
Theorem failed_load_reads_slot
    (wc : Cart.World) (ww : Wishlist.World) (restc restw : list bool) :
  isAuthenticated wc = true -> net wc = false :: restc ->
  isAuthenticated ww = true -> net ww = false :: restw ->
  (items (Cart.step wc Cart.Load)
   = match truthy (localStorage wc) with
     | Some (Stringified v) => v
     | Some _ => []
     | None => items wc
     end /\
   server (Cart.step wc Cart.Load) = server wc) /\
  (items (Wishlist.step ww Wishlist.Load)
   = match truthy (localStorage ww) with
     | Some (Stringified v) => v
     | Some _ => []
     | None => items ww
     end /\
   server (Wishlist.step ww Wishlist.Load) = server ww /\
   localStorage (Wishlist.step ww Wishlist.Load) = localStorage ww).
Proof.
  intros Hc Nc Hw Nw.
  destruct wc as [a its l st slot b n]; simpl in Hc, Nc; subst a n.
  destruct ww as [a' its' l' st' slot' b' n']; simpl in Hw, Nw; subst a' n'.
  split.
  - unfold_cart_ops; unfold_runtime; evaluate_with idtac.
    destruct slot as [[v| |]|], st; simpl; auto.
  - unfold_wishlist_ops; unfold_runtime; evaluate_with idtac.
    destruct slot' as [[v| |]|], st'; simpl; auto.
Qed.

Lemma failed_load_reads_slot_witness :
  items (Cart.step (with_items [] offline_cart) Cart.Load)
  = [mkCartItem productA 1] /\
  items (Wishlist.step (with_items [] offline_wishlist) Wishlist.Load)
  = [productA].
Proof.
  destruct (failed_load_reads_slot
              (with_items [] offline_cart) (with_items [] offline_wishlist)
              [] [] eq_refl eq_refl eq_refl eq_refl) as [[Hc _] [Hw _]].
  split; [exact Hc | exact Hw].
Defined.

(** X3: at every point of the cart provider's life, logging out and a
    login whose fetch fails each leave the canonical snapshot exactly as
    it is, and so does mounting the provider afresh on the slot, which
    is all a reload of the page is for an anonymous visitor: the load
    reads back what the persist effect wrote.  For a customer with a
    session the reload goes on to sign in again, and the snapshot then
    survives only if the fetch fails: an answered fetch replaces it with
    the remote cart. *)
Theorem cart_snapshot_survives
    (slot : option (Text CartItem)) (b b' : Cart.Backend) (n n' rest : list bool)
    (ops : list Cart.Op) :
  let w := Cart.run ops (Cart.mount slot b n) in
  items (Cart.step w Cart.Logout) = items w /\
  items (Cart.step (with_net (false :: rest) w) Cart.Login) = items w /\
  items (Cart.mount (localStorage w) b' n') = items w /\
  isAuthenticated (Cart.mount (localStorage w) b' n') = false /\
  items (Cart.step (Cart.mount (localStorage w) b' (false :: rest)) Cart.Login)
  = items w /\
  items (Cart.step (Cart.mount (localStorage w) b' (true :: rest)) Cart.Login)
  = Cart.cart b' /\
  items (Cart.step (Cart.mount (localStorage w) b' []) Cart.Login)
  = Cart.cart b'.
Proof.
  intros w. destruct (cart_run_mirrors slot b n ops) as [Hs Hm].
  fold w in Hs, Hm. clearbody w.
  destruct w as [a its l st sl be ne]. unfold mirrors in Hm.
  simpl in Hs, Hm. subst st sl.
  unfold Cart.mount. unfold_cart_ops. unfold_runtime.
  evaluate_with idtac. repeat split.
Qed.

(** A customer with a session reloads the page: the two entries of the
    snapshot give way to the remote cart's one. *)
Example reload_with_a_session_adopts_the_remote_cart :
  let remote := Cart.mkBackend shop [mkCartItem productA 1] in
  let reloaded := Cart.mount (localStorage anonymous_cart) remote [] in
  items reloaded = items anonymous_cart /\
  items (Cart.step reloaded Cart.Login) = [mkCartItem productA 1].
Proof. vm_compute. split; reflexivity. Qed.

(** ** The cart's local mutations *)

Lemma requantify_nothing (pid : string) (f : CartItem -> Z) (its : list CartItem) :
  existsb (Cart.same_id pid) its = false ->
  map (fun item =>
         if Cart.same_id pid item then mkCartItem (product item) (f item)
         else item) its = its.
Proof.
  induction its as [|e r IH]; simpl; [reflexivity|].
  destruct (Cart.same_id pid e); simpl; [discriminate|].
  intros H. now rewrite IH.
Qed.

Lemma find_existsb (pid : string) (its : list CartItem) :
  existsb (Cart.same_id pid) its
  = match find (Cart.same_id pid) its with Some _ => true | None => false end.
Proof.
  induction its as [|e r IH]; simpl; [reflexivity|].
  destruct (Cart.same_id pid e); simpl; auto.
Qed.

Lemma existsb_requantified (pid pid' : string) (f : CartItem -> Z)
    (its : list CartItem) :
  existsb (Cart.same_id pid')
    (map (fun item =>
            if Cart.same_id pid item then mkCartItem (product item) (f item)
            else item) its)
  = existsb (Cart.same_id pid') its.
Proof.
  induction its as [|e r IH]; simpl; [reflexivity|].
  rewrite IH. destruct (Cart.same_id pid e); reflexivity.
Qed.

Lemma entry_below_sum (its : list CartItem) (item : CartItem) :
  nonnegative_quantities its -> In item its ->
  0 <= quantity item <= sum_of_quantities its.
Proof.
  induction 1 as [|e r He Hr IH]; simpl; [tauto|].
  assert (Hsum : 0 <= sum_of_quantities r).
  { clear IH. induction Hr as [|x l Hx Hl IHl]; simpl; lia. }
  intros [<-|Hi]; [lia|]. specialize (IH Hi). lia.
Qed.

Lemma add_locally_twice (p p' : Product) (q1 q2 : Z) (its : list CartItem) :
  id p' = id p ->
  0 <= q1 -> 0 <= q2 ->
  nonnegative_quantities its ->
  sum_of_quantities its + q1 + q2 <= 2 ^ 53 ->
  Cart.add_locally p' q2 (Cart.add_locally p q1 its)
  = Cart.add_locally p (q1 + q2) its.
Proof.
  intros E H1 H2 Hn Hs. unfold Cart.add_locally. rewrite E.
  assert (Hsum : 0 <= sum_of_quantities its).
  { clear Hs. induction Hn as [|x l Hx Hl IHl]; simpl; lia. }
  pose proof (find_existsb (id p) its) as Hf.
  destruct (find (Cart.same_id (id p)) its) as [found|] eqn:F.
  - pose proof (find_existsb (id p)
        (map (fun item =>
                if Cart.same_id (id p) item
                then mkCartItem (product item) (Number.add (quantity item) q1)
                else item) its)) as Hg.
    rewrite (existsb_requantified (id p) (id p)
               (fun item => Number.add (quantity item) q1)) in Hg.
    rewrite Hf in Hg.
    destruct (find _ (map _ its)); [|discriminate].
    rewrite map_map. apply map_ext_in. intros item Hi.
    destruct (entry_below_sum its item Hn Hi) as [Lo Hi'].
    destruct (Cart.same_id (id p) item) eqn:S; simpl; [|now rewrite S].
    unfold Cart.same_id in *. simpl. rewrite S. f_equal.
    rewrite (add_exact (quantity item) q1) by (rewrite Z.abs_eq; lia).
    rewrite !add_exact by (rewrite Z.abs_eq; lia). lia.
  - assert (G : find (Cart.same_id (id p)) (its ++ [mkCartItem p q1])
                = Some (mkCartItem p q1)).
    { clear Hf Hn Hs Hsum. induction its as [|e r IH]; simpl in *.
      - unfold Cart.same_id. simpl. now rewrite String.eqb_refl.
      - destruct (Cart.same_id (id p) e); [discriminate|]. now apply IH. }
    rewrite G, map_app. simpl.
    rewrite (requantify_nothing (id p) (fun item => Number.add (quantity item) q2))
      by exact Hf.
    unfold Cart.same_id at 1. simpl. rewrite String.eqb_refl.
    rewrite add_exact by (rewrite Z.abs_eq; lia). reflexivity.
Qed.

(** X4: anonymous adds of one product accumulate while the numbers are
    exact: with non-negative quantities in the cart and in the two
    calls, and no more than [2 ^ 53] items in all, adding [q1] and then
    [q2] of a product (the second time through any record carrying the
    same id) leaves the snapshot that one add of [q1 + q2] of the first
    record leaves.  (Past [2 ^ 53] the two roundings of the first need
    not agree with the one rounding of the second.) *)
Theorem anonymous_adds_accumulate
    (p p' : Product) (q1 q2 : Z) (w : Cart.World) :
  isAuthenticated w = false ->
  id p' = id p ->
  0 <= q1 -> 0 <= q2 ->
  nonnegative_quantities (items w) ->
  sum_of_quantities (items w) + q1 + q2 <= 2 ^ 53 ->
  items (Cart.run [Cart.Add p q1; Cart.Add p' q2] w)
  = items (Cart.step w (Cart.Add p (q1 + q2))).
Proof.
  intros Ha E H1 H2 Hn Hs. simpl.
  destruct (anonymous_step w (Cart.Add p q1) Ha I) as [Ha1 Hi1].
  destruct (anonymous_step (Cart.step w (Cart.Add p q1)) (Cart.Add p' q2) Ha1 I)
    as [_ ->].
  destruct (anonymous_step w (Cart.Add p (q1 + q2)) Ha I) as [_ ->].
  rewrite Hi1. now apply add_locally_twice.
Qed.

Lemma anonymous_adds_accumulate_witness :
  items (Cart.run [Cart.Add productA 2; Cart.Add productA 3]
           (Cart.mount None (Cart.mkBackend shop []) []))
  = [mkCartItem productA 5].
Proof.
  rewrite (anonymous_adds_accumulate productA productA 2 3
             (Cart.mount None (Cart.mkBackend shop []) []) eq_refl eq_refl).
  - reflexivity.
  - lia.
  - lia.
  - constructor.
  - simpl. lia.
Defined.

(** Past [2 ^ 53] the equality fails: on an entry of [2 ^ 53] items two
    adds of one are each rounded away, one add of two is not. *)
Example adds_beyond_the_exact_range :
  let w := with_items [mkCartItem productA (2 ^ 53)]
             (Cart.mount None (Cart.mkBackend shop []) []) in
  items (Cart.run [Cart.Add productA 1; Cart.Add productA 1] w)
  = [mkCartItem productA (2 ^ 53)] /\
  items (Cart.step w (Cart.Add productA 2))
  = [mkCartItem productA (2 ^ 53 + 2)].
Proof. vm_compute. split; reflexivity. Qed.

Lemma total_of_requantified (pid : string) (q : Z) (its : list CartItem) :
  NoDup (product_references its) ->
  existsb (Cart.same_id pid) its = true ->
  sum_of_quantities
    (map (fun item =>
            if Cart.same_id pid item
            then mkCartItem (product item) (quantity item + q)
            else item) its)
  = sum_of_quantities its + q.
Proof.
  induction its as [|e r IH]; simpl; [discriminate|].
  intros Hn H. inversion Hn as [|x l Hx Hl]; subst.
  destruct (Cart.same_id pid e) eqn:S; simpl.
  - rewrite requantify_nothing; [lia|].
    destruct (existsb (Cart.same_id pid) r) eqn:Ex; [|reflexivity].
    exfalso. apply Hx. apply existsb_exists in Ex. destruct Ex as (y & Hy & Sy).
    unfold Cart.same_id in S, Sy.
    apply String.eqb_eq in S. apply String.eqb_eq in Sy.
    rewrite S, <- Sy.
    exact (in_map (fun item => id (product item)) r y Hy).
  - rewrite IH by assumption. lia.
Qed.

Lemma total_of_appended (its : list CartItem) (e : CartItem) :
  sum_of_quantities (its ++ [e]) = sum_of_quantities its + quantity e.
Proof. induction its as [|x r IH]; simpl; [lia | rewrite IH; lia]. Qed.

(** Within [2 ^ 53] the updater of [addToCart] adds as the integers do. *)
Lemma add_locally_in_range (prod : Product) (qty : Z) (its : list CartItem) :
  0 <= qty ->
  nonnegative_quantities its ->
  sum_of_quantities its + qty <= 2 ^ 53 ->
  Cart.add_locally prod qty its
  = match find (Cart.same_id (id prod)) its with
    | Some _ =>
        map (fun item =>
               if Cart.same_id (id prod) item
               then mkCartItem (product item) (quantity item + qty)
               else item) its
    | None => its ++ [mkCartItem prod qty]
    end.
Proof.
  intros Hq Hn Hs. unfold Cart.add_locally.
  destruct (find (Cart.same_id (id prod)) its); [|reflexivity].
  apply map_ext_in. intros item Hi.
  destruct (entry_below_sum its item Hn Hi) as [Lo Hi'].
  destruct (Cart.same_id (id prod) item); [|reflexivity].
  rewrite add_exact by (rewrite Z.abs_eq; lia). reflexivity.
Qed.

Lemma add_locally_nonnegative (prod : Product) (qty : Z) (its : list CartItem) :
  0 <= qty ->
  nonnegative_quantities its ->
  sum_of_quantities its + qty <= 2 ^ 53 ->
  nonnegative_quantities (Cart.add_locally prod qty its).
Proof.
  intros Hq Hn Hs. rewrite add_locally_in_range by assumption.
  unfold nonnegative_quantities in *.
  destruct (find (Cart.same_id (id prod)) its).
  - rewrite Forall_forall in *. intros x Hx. apply in_map_iff in Hx.
    destruct Hx as (y & <- & Hy). specialize (Hn y Hy).
    destruct (Cart.same_id (id prod) y); simpl; lia.
  - apply Forall_app. split; [exact Hn|]. repeat constructor. exact Hq.
Qed.

(** X5: in an anonymous cart without duplicate products, with
    non-negative quantities and room below [2 ^ 53] for the items added,
    adding [qty] of a product raises [getTotalItems] by exactly [qty],
    whether the product was there or not. *)
Theorem anonymous_add_raises_total
    (prod : Product) (qty : Z) (w : Cart.World) :
  isAuthenticated w = false ->
  unique_products (items w) ->
  nonnegative_quantities (items w) ->
  0 <= qty ->
  sum_of_quantities (items w) + qty <= 2 ^ 53 ->
  Cart.getTotalItems (items (Cart.step w (Cart.Add prod qty)))
  = Cart.getTotalItems (items w) + qty.
Proof.
  intros Ha Hu Hn Hq Hs.
  destruct (anonymous_step w (Cart.Add prod qty) Ha I) as [_ ->].
  assert (Hsum : sum_of_quantities (Cart.add_locally prod qty (items w))
                 = sum_of_quantities (items w) + qty).
  { rewrite add_locally_in_range by assumption.
    pose proof (find_existsb (id prod) (items w)) as Hf.
    destruct (find (Cart.same_id (id prod)) (items w)).
    - now rewrite total_of_requantified.
    - rewrite total_of_appended. reflexivity. }
  destruct (total_in_range (items w) Hn) as [Hx _].
  destruct (total_in_range (Cart.add_locally prod qty (items w))) as [Hy _].
  { now apply add_locally_nonnegative. }
  rewrite Hx by lia. rewrite Hy by lia. exact Hsum.
Qed.

Lemma anonymous_add_raises_total_witness :
  Cart.getTotalItems (items (Cart.step anonymous_cart (Cart.Add productB 4))) = 7.
Proof.
  rewrite (anonymous_add_raises_total productB 4 anonymous_cart eq_refl).
  - reflexivity.
  - unfold unique_products. simpl.
    repeat constructor; simpl; intuition discriminate.
  - repeat constructor; simpl; lia.
  - lia.
  - simpl. lia.
Defined.

Lemma existsb_add_locally (prod : Product) (qty : Z) (pid : string)
    (its : list CartItem) :
  existsb (Cart.same_id pid) (Cart.add_locally prod qty its)
  = (existsb (Cart.same_id pid) its || String.eqb (id prod) pid)%bool.
Proof.
  unfold Cart.add_locally.
  pose proof (find_existsb (id prod) its) as Hf.
  destruct (find (Cart.same_id (id prod)) its).
  - rewrite (existsb_requantified (id prod) pid
               (fun item => Number.add (quantity item) qty)).
    destruct (String.eqb_spec (id prod) pid) as [<-|]; [|now rewrite orb_false_r].
    now rewrite Hf.
  - rewrite existsb_app. simpl. unfold Cart.same_id at 2. simpl.
    now rewrite orb_false_r.
Qed.

Lemma existsb_remove_locally (pid pid' : string) (its : list CartItem) :
  existsb (Cart.same_id pid') (Cart.remove_locally pid its)
  = (existsb (Cart.same_id pid') its && negb (String.eqb pid' pid))%bool.
Proof.
  unfold Cart.remove_locally, Cart.same_id.
  induction its as [|e r IH]; simpl; [reflexivity|].
  destruct (String.eqb_spec (id (product e)) pid) as [E1|E1];
  destruct (String.eqb_spec (id (product e)) pid') as [E2|E2];
  destruct (String.eqb_spec pid' pid) as [E3|E3];
  simpl; rewrite ?IH; try congruence;
  destruct (String.eqb_spec (id (product e)) pid'); try congruence;
  destruct (String.eqb_spec pid' pid); try congruence;
  destruct (existsb _ r); reflexivity.
Qed.

(** X6: for an anonymous visitor, [isInCart] holds of a product after
    it is added and fails after it is removed, and for every other
    product it answers as before the operation. *)
Theorem anonymous_membership
    (prod : Product) (qty : Z) (productId other : string) (w : Cart.World) :
  isAuthenticated w = false ->
  Cart.isInCart (id prod) (items (Cart.step w (Cart.Add prod qty))) = true /\
  Cart.isInCart productId (items (Cart.step w (Cart.Remove productId))) = false /\
  (other <> id prod ->
   Cart.isInCart other (items (Cart.step w (Cart.Add prod qty)))
   = Cart.isInCart other (items w)) /\
  (other <> productId ->
   Cart.isInCart other (items (Cart.step w (Cart.Remove productId)))
   = Cart.isInCart other (items w)).
Proof.
  intros Ha.
  destruct (anonymous_step w (Cart.Add prod qty) Ha I) as [_ ->].
  destruct (anonymous_step w (Cart.Remove productId) Ha I) as [_ ->].
  unfold Cart.isInCart.
  rewrite !existsb_add_locally, !existsb_remove_locally, !String.eqb_refl.
  split; [apply orb_true_r|]. split; [apply andb_false_r|]. split; intros N.
  - destruct (String.eqb_spec (id prod) other); [congruence|apply orb_false_r].
  - destruct (String.eqb_spec other productId); [congruence|apply andb_true_r].
Qed.

Lemma anonymous_membership_witness :
  Cart.isInCart "A"%string
    (items (Cart.step anonymous_cart (Cart.Remove "A"%string))) = false /\
  Cart.isInCart "B"%string
    (items (Cart.step anonymous_cart (Cart.Remove "A"%string))) = true.
Proof.
  destruct (anonymous_membership productA 1 "A"%string "B"%string
              anonymous_cart eq_refl) as (_ & Hr & _ & Ho).
  split; [exact Hr|]. rewrite Ho; [reflexivity | discriminate].
Defined.

(** X7: for an anonymous visitor, [updateQuantity] with a positive
    quantity never inserts and never removes: the products of the
    snapshot and their order stay, a product that is absent leaves the
    snapshot as it is, and every entry of the product then carries the
    new quantity. *)
Theorem anonymous_update_only_requantifies
    (productId : string) (qty : Z) (w : Cart.World) :
  isAuthenticated w = false ->
  0 < qty ->
  let w' := Cart.step w (Cart.Update productId qty) in
  map product (items w') = map product (items w) /\
  (Cart.isInCart productId (items w) = false -> items w' = items w) /\
  (forall item, In item (items w') ->
     quantity item = if Cart.same_id productId item then qty
                     else quantity item) /\
  (forall item, In item (items w') -> Cart.same_id productId item = false ->
     In item (items w)).
Proof.
  intros Ha Hq w'. subst w'.
  destruct (anonymous_step w (Cart.Update productId qty) Ha I) as [_ ->].
  destruct (Z.leb_spec qty 0); [lia|].
  unfold Cart.update_locally, Cart.isInCart.
  split; [|split; [|split]].
  - rewrite map_map. apply map_ext. intros item.
    destruct (Cart.same_id productId item); reflexivity.
  - intros Hn. now apply (requantify_nothing productId (fun _ => qty)).
  - intros item Hin. apply in_map_iff in Hin. destruct Hin as (x & <- & _).
    destruct (Cart.same_id productId x) eqn:S; simpl.
    + unfold Cart.same_id in *. simpl. now rewrite S.
    + now rewrite S.
  - intros item Hin S. apply in_map_iff in Hin. destruct Hin as (x & E & Hx).
    destruct (Cart.same_id productId x) eqn:Sx; subst item; [|exact Hx].
    unfold Cart.same_id in *. simpl in S. congruence.
Qed.

Lemma anonymous_update_only_requantifies_witness :
  items (Cart.step anonymous_cart (Cart.Update "C"%string 4)) = items anonymous_cart /\
  map product (items (Cart.step anonymous_cart (Cart.Update "A"%string 4)))
  = [productA; productB].
Proof.
  assert (Hq : 0 < 4) by lia.
  destruct (anonymous_update_only_requantifies "C"%string 4 anonymous_cart
              eq_refl Hq) as (_ & Hn & _).
  destruct (anonymous_update_only_requantifies "A"%string 4 anonymous_cart
              eq_refl Hq) as (Hp & _).
  split; [apply Hn; reflexivity | exact Hp].
Defined.

Lemma remove_locally_absent (pid : string) (its : list CartItem) :
  existsb (Cart.same_id pid) its = false -> Cart.remove_locally pid its = its.
Proof.
  unfold Cart.remove_locally.
  induction its as [|e r IH]; simpl; [reflexivity|].
  destruct (Cart.same_id pid e); simpl; [discriminate|].
  intros H. now rewrite IH.
Qed.

Lemma remove_locally_commutes (a b : string) (its : list CartItem) :
  Cart.remove_locally a (Cart.remove_locally b its)
  = Cart.remove_locally b (Cart.remove_locally a its).
Proof.
  unfold Cart.remove_locally.
  induction its as [|e r IH]; simpl; [reflexivity|].
  destruct (Cart.same_id b e) eqn:Sb, (Cart.same_id a e) eqn:Sa; simpl;
    rewrite ?Sa, ?Sb; simpl; now rewrite IH.
Qed.

(** X8: for an anonymous visitor, removing a product that is not in the
    cart changes nothing in the snapshot, removing twice is removing
    once, and two removals give the same snapshot in either order. *)
Theorem anonymous_remove_laws (a b : string) (w : Cart.World) :
  isAuthenticated w = false ->
  (Cart.isInCart a (items w) = false ->
   items (Cart.step w (Cart.Remove a)) = items w) /\
  items (Cart.run [Cart.Remove a; Cart.Remove a] w)
  = items (Cart.step w (Cart.Remove a)) /\
  items (Cart.run [Cart.Remove a; Cart.Remove b] w)
  = items (Cart.run [Cart.Remove b; Cart.Remove a] w).
Proof.
  intros Ha. simpl.
  destruct (anonymous_step w (Cart.Remove a) Ha I) as [Ha1 E1].
  destruct (anonymous_step w (Cart.Remove b) Ha I) as [Hb1 E2].
  destruct (anonymous_step _ (Cart.Remove a) Ha1 I) as [_ ->].
  destruct (anonymous_step _ (Cart.Remove b) Ha1 I) as [_ ->].
  destruct (anonymous_step _ (Cart.Remove a) Hb1 I) as [_ ->].
  rewrite E1, E2. split; [|split].
  - apply remove_locally_absent.
  - apply remove_locally_absent.
    pose proof (existsb_remove_locally a a (items w)) as H.
    rewrite String.eqb_refl, andb_false_r in H. exact H.
  - symmetry. apply remove_locally_commutes.
Qed.

Lemma anonymous_remove_laws_witness :
  items (Cart.step anonymous_cart (Cart.Remove "C"%string)) = items anonymous_cart /\
  items (Cart.run [Cart.Remove "A"%string; Cart.Remove "B"%string] anonymous_cart) = [].
Proof.
  destruct (anonymous_remove_laws "C"%string "B"%string anonymous_cart eq_refl)
    as (Hn & _ & _).
  split; [apply Hn; reflexivity | reflexivity].
Defined.

(** ** Synchronising and mutating while signed in *)

(** X9: [syncCart] sends nothing and changes nothing when the visitor
    is anonymous or the slot yields no entry (absent, empty, not
    parseable, or the empty list); and when its sync request fails, only
    the request is spent: snapshot, slot and backend stay as they were. *)
Theorem sync_without_effect (w : Cart.World) (rest : list bool) :
  stale w = false ->
  (isAuthenticated w = false \/ slot_entries (localStorage w) = [] ->
   Cart.step w Cart.Sync = w) /\
  (isAuthenticated w = true -> slot_entries (localStorage w) <> [] ->
   net w = false :: rest ->
   Cart.step w Cart.Sync = with_net rest w).
Proof.
  destruct w as [a its l st slot b n]; simpl. intros ->. split.
  - unfold slot_entries.
    intros [->|H]; unfold_cart_ops; unfold_runtime; simpl; [reflexivity|].
    destruct a; simpl; [|reflexivity].
    destruct slot as [[[|x v]| |]|]; simpl in *; try reflexivity; discriminate.
  - unfold slot_entries. intros -> H ->. unfold_cart_ops; unfold_runtime; simpl.
    destruct slot as [[[|x v]| |]|]; simpl in *; try reflexivity; contradiction.
Qed.

Lemma sync_without_effect_witness :
  Cart.step anonymous_cart Cart.Sync = anonymous_cart /\
  Cart.step offline_cart Cart.Sync = with_net [] offline_cart.
Proof.
  destruct (sync_without_effect anonymous_cart [] eq_refl) as [Hn _].
  destruct (sync_without_effect offline_cart [] eq_refl) as [_ Hf].
  split; [apply Hn; left; reflexivity|].
  apply Hf; [reflexivity | discriminate | reflexivity].
Defined.

(** X10: when the visitor is signed in, the slot holds a non-empty
    list and both requests are answered, [syncCart] pushes exactly the
    (product id, quantity) pairs of the slot's entries and then adopts
    the remote cart as snapshot and slot. *)
Theorem sync_pushes_slot_then_adopts_remote
    (w : Cart.World) (first : CartItem) (others : list CartItem) :
  isAuthenticated w = true ->
  localStorage w = Some (Stringified (first :: others)) ->
  reaches 2 w ->
  let pushed := snd (Cart.post_cart_sync
                       (map (fun item => (id (product item), quantity item))
                            (first :: others))
                       (server w)) in
  let w' := Cart.step w Cart.Sync in
  server w' = pushed /\
  items w' = Cart.cart pushed /\
  localStorage w' = Some (Stringified (Cart.cart pushed)).
Proof.
  intros Ha Hs Hn. apply reaches_two_cases in Hn.
  destruct w as [a its l st slot b n]; simpl in Ha, Hs, Hn; subst a slot.
  destruct Hn as [->|[->|[rest ->]]];
    unfold_cart_ops; unfold_runtime; unfold Cart.sync_payload;
    evaluate_with idtac; auto.
Qed.

Lemma sync_pushes_slot_then_adopts_remote_witness :
  items (Cart.step (with_auth true anonymous_cart) Cart.Sync)
  = [mkCartItem productA 2; mkCartItem productB 1] /\
  Cart.cart (server (Cart.step (with_auth true anonymous_cart) Cart.Sync))
  = [mkCartItem productA 2; mkCartItem productB 1].
Proof.
  assert (Hn : reaches 2 (with_auth true anonymous_cart))
    by (unfold reaches; simpl; constructor).
  destruct (sync_pushes_slot_then_adopts_remote (with_auth true anonymous_cart)
              (mkCartItem productA 2) [mkCartItem productB 1]
              eq_refl eq_refl Hn) as (Hserver & Hitems & _).
  split; [exact Hitems | rewrite Hserver; reflexivity].
Defined.

(** X11: a signed-in add, remove or update on a mirrored cart, by what
    becomes of its requests.  When the mutation's own request fails,
    lost on the way or refused by the backend, the local mutation is
    applied to the snapshot and the remote cart is as it was.  When it
    is answered and the fetch of the reload is answered too, the
    snapshot is the remote cart as the request left it.  When it is
    answered and the fetch of the reload fails, the remote cart has
    changed and the snapshot has not: it is read back from the slot. *)
Theorem authenticated_mutation_outcomes (op : Cart.Op) (w : Cart.World) :
  isAuthenticated w = true ->
  mirrors w ->
  anonymous_mutation op ->
  let sent := mutation_request op (items w) in
  let w' := Cart.step w op in
  (request_fails sent w ->
   items w' = local_effect op (items w) /\ server w' = server w) /\
  (fst (sent (server w)) = Ok tt -> reaches 2 w ->
   server w' = snd (sent (server w)) /\ items w' = Cart.cart (server w')) /\
  (fst (sent (server w)) = Ok tt ->
   (exists rest, net w = true :: false :: rest) ->
   server w' = snd (sent (server w)) /\ items w' = items w).
Proof.
  intros Ha Hm Hop.
  destruct w as [a its l st slot b n]. unfold mirrors in Hm.
  simpl in Ha, Hm. subst a slot.
  unfold request_fails.
  split; [|split].
  - intros [e He]. revert He.
    destruct op; simpl in Hop; try contradiction;
      unfold mutation_request, local_effect;
      unfold_cart_ops; unfold Cart.put_cart_item, Cart.post_cart_item;
      unfold_runtime; explore; simpl; intros; try discriminate; auto.
  - intros Hok Hn. apply reaches_two_cases in Hn. simpl in Hn. revert Hok.
    destruct Hn as [->|[->|[rest ->]]];
      destruct op; simpl in Hop; try contradiction;
      unfold mutation_request, local_effect;
      unfold_cart_ops; unfold Cart.put_cart_item, Cart.post_cart_item;
      unfold_runtime; explore; simpl; intros; try discriminate; auto.
  - intros Hok [rest Hn]. simpl in Hn. subst n. revert Hok.
    destruct op; simpl in Hop; try contradiction;
      unfold mutation_request, local_effect;
      unfold_cart_ops; unfold Cart.put_cart_item, Cart.post_cart_item;
      unfold_runtime; explore; simpl; intros; try discriminate; auto.
Qed.

Lemma authenticated_mutation_outcomes_witness :
  (items (Cart.step offline_cart (Cart.Add productB 1))
   = local_effect (Cart.Add productB 1) (items offline_cart) /\
   server (Cart.step offline_cart (Cart.Add productB 1)) = server offline_cart) /\
  (server (Cart.step returning_cart (Cart.Add productA 1))
   = snd (mutation_request (Cart.Add productA 1) (items returning_cart)
            (server returning_cart)) /\
   items (Cart.step returning_cart (Cart.Add productA 1))
   = Cart.cart (server (Cart.step returning_cart (Cart.Add productA 1)))).
Proof.
  destruct (authenticated_mutation_outcomes (Cart.Add productB 1) offline_cart
              eq_refl eq_refl I) as [Hfail _].
  destruct (authenticated_mutation_outcomes (Cart.Add productA 1) returning_cart
              eq_refl eq_refl I) as [_ [Hok _]].
  split.
  - apply Hfail. exists NetworkError. reflexivity.
  - apply Hok; [reflexivity | unfold reaches; simpl; constructor].
Defined.

(** The three outcomes on one cart holding [productA] once, when one
    more is added: the request lost; both requests answered; the
    request answered and the reload lost. *)
Example one_more_of_productA :
  let member (script : list bool) : Cart.World :=
    mkWorld true [mkCartItem productA 1] false false
      (Some (Stringified [mkCartItem productA 1]))
      (Cart.mkBackend shop [mkCartItem productA 1]) script in
  let added (script : list bool) : Cart.World :=
    Cart.step (member script) (Cart.Add productA 1) in
  (items (added [false]) = [mkCartItem productA 2] /\
   Cart.cart (server (added [false])) = [mkCartItem productA 1]) /\
  (items (added [true; true]) = [mkCartItem productA 2] /\
   Cart.cart (server (added [true; true])) = [mkCartItem productA 2]) /\
  (items (added [true; false]) = [mkCartItem productA 1] /\
   Cart.cart (server (added [true; false])) = [mkCartItem productA 2]).
Proof. vm_compute. repeat split; reflexivity. Qed.

(** ** The wishlist's local mutations *)

Lemma anonymous_wish_step (w : Wishlist.World) (op : Wishlist.Op) :
  isAuthenticated w = false ->
  wishlist_mutation op ->
  isAuthenticated (Wishlist.step w op) = false /\
  items (Wishlist.step w op) = wish_effect op (items w).
Proof.
  destruct w as [a its l st slot b n]; simpl. intros -> Hop.
  destruct op; simpl in Hop; try contradiction;
    unfold Wishlist.isInWishlist;
    unfold_wishlist_ops; unfold_runtime; unfold Wishlist.isInWishlist;
    simpl;
    try destruct (existsb (Wishlist.same_id (id prod)) its) eqn:E;
    destruct st; simpl; unfold Wishlist.isInWishlist; rewrite ?E; simpl; auto.
Qed.

Lemma wish_absent_not_listed (pid : string) (its : list Product) :
  existsb (Wishlist.same_id pid) its = false -> ~ In pid (map id its).
Proof.
  induction its as [|e r IH]; simpl; [tauto|].
  unfold Wishlist.same_id at 1.
  destruct (String.eqb_spec (id e) pid) as [E|E]; simpl; [discriminate|].
  intros H [F|F]; [congruence | exact (IH H F)].
Qed.

Lemma wish_append_unique (prod : Product) (its : list Product) :
  existsb (Wishlist.same_id (id prod)) its = false ->
  unique_wishes its -> unique_wishes (its ++ [prod]).
Proof.
  unfold unique_wishes. intros E H. rewrite map_app. simpl.
  apply NoDup_app; [exact H | repeat constructor; simpl; tauto |].
  intros r Hr [<-|[]]. now apply (wish_absent_not_listed _ _ E).
Qed.

Lemma wish_remove_unique (pid : string) (its : list Product) :
  unique_wishes its -> unique_wishes (Wishlist.remove_locally pid its).
Proof.
  unfold unique_wishes, Wishlist.remove_locally.
  induction its as [|e t IH]; simpl; intros H; [constructor|].
  inversion H as [|x l Hx Hl]; subst.
  destruct (Wishlist.same_id pid e); simpl; [auto|].
  constructor; [|auto].
  intros F. apply Hx. apply in_map_iff in F. destruct F as (y & Ey & Hy).
  apply filter_In in Hy. rewrite <- Ey. apply in_map, Hy.
Qed.

Lemma wish_effect_unique (op : Wishlist.Op) (its : list Product) :
  unique_wishes its -> unique_wishes (wish_effect op its).
Proof.
  intros H. destruct op; simpl; auto; unfold Wishlist.isInWishlist.
  - destruct (existsb _ its) eqn:E; [exact H | now apply wish_append_unique].
  - now apply wish_remove_unique.
  - constructor.
  - destruct (existsb _ its) eqn:E;
      [now apply wish_remove_unique | now apply wish_append_unique].
Qed.

(** X12: for an anonymous visitor, no sequence of wishlist adds,
    removes, toggles and clears ever puts two products with the same id
    in a snapshot that had none. *)
Theorem anonymous_wishlist_stays_unique
    (ops : list Wishlist.Op) (w : Wishlist.World) :
  isAuthenticated w = false ->
  unique_wishes (items w) ->
  Forall wishlist_mutation ops ->
  unique_wishes (items (Wishlist.run ops w)).
Proof.
  intros Ha Hu Hops. revert w Ha Hu.
  induction Hops as [|op ops Hop Hops IH]; intros w Ha Hu; simpl; [exact Hu|].
  destruct (anonymous_wish_step w op Ha Hop) as [Ha' E].
  apply IH; [exact Ha'|]. rewrite E. now apply wish_effect_unique.
Qed.

Lemma anonymous_wishlist_stays_unique_witness :
  unique_wishes
    (items (Wishlist.run [Wishlist.Add productA; Wishlist.Toggle productB;
                          Wishlist.Add productB]
              (Wishlist.mount None (Wishlist.mkBackend shop []) []))).
Proof.
  apply (anonymous_wishlist_stays_unique
           [Wishlist.Add productA; Wishlist.Toggle productB; Wishlist.Add productB]
           (Wishlist.mount None (Wishlist.mkBackend shop []) [])).
  - reflexivity.
  - constructor.
  - repeat constructor.
Defined.

Lemma wish_remove_absent (pid : string) (its : list Product) :
  existsb (Wishlist.same_id pid) its = false ->
  Wishlist.remove_locally pid its = its.
Proof.
  unfold Wishlist.remove_locally.
  induction its as [|e r IH]; simpl; [reflexivity|].
  destruct (Wishlist.same_id pid e); simpl; [discriminate|].
  intros H. now rewrite IH.
Qed.

(** X13: for an anonymous visitor, [isInWishlist] holds of a product
    after it is added and fails after it is removed, and
    [toggleWishlist] flips it; toggling twice gives back the very
    snapshot when the product was absent, and otherwise moves the
    product to the end, the record passed replacing the stored one. *)
Theorem anonymous_toggle_flips (prod : Product) (w : Wishlist.World) :
  isAuthenticated w = false ->
  Wishlist.isInWishlist (id prod) (items (Wishlist.step w (Wishlist.Add prod)))
  = true /\
  Wishlist.isInWishlist (id prod)
    (items (Wishlist.step w (Wishlist.Remove (id prod)))) = false /\
  Wishlist.isInWishlist (id prod) (items (Wishlist.step w (Wishlist.Toggle prod)))
  = negb (Wishlist.isInWishlist (id prod) (items w)) /\
  items (Wishlist.run [Wishlist.Toggle prod; Wishlist.Toggle prod] w)
  = if Wishlist.isInWishlist (id prod) (items w)
    then Wishlist.remove_locally (id prod) (items w) ++ [prod]
    else items w.
Proof.
  intros Ha. simpl.
  destruct (anonymous_wish_step w (Wishlist.Add prod) Ha I) as [_ ->].
  destruct (anonymous_wish_step w (Wishlist.Remove (id prod)) Ha I) as [_ ->].
  destruct (anonymous_wish_step w (Wishlist.Toggle prod) Ha I) as [Ha1 E1].
  destruct (anonymous_wish_step _ (Wishlist.Toggle prod) Ha1 I) as [_ ->].
  rewrite E1. simpl. rewrite wishlist_removed_is_absent.
  destruct (Wishlist.isInWishlist (id prod) (items w)) eqn:E; simpl.
  - rewrite wishlist_removed_is_absent. repeat split; auto.
  - unfold Wishlist.isInWishlist in *.
    rewrite present_after_append by apply same_id_refl.
    repeat split; auto.
    unfold Wishlist.remove_locally. rewrite filter_app. simpl.
    rewrite same_id_refl. simpl. rewrite app_nil_r.
    now apply wish_remove_absent.
Qed.

Lemma anonymous_toggle_flips_witness :
  items (Wishlist.run [Wishlist.Toggle productA; Wishlist.Toggle productA]
           anonymous_wishlist)
  = [productB; productA].
Proof.
  destruct (anonymous_toggle_flips productA anonymous_wishlist eq_refl)
    as (_ & _ & _ & H).
  rewrite H. reflexivity.
Defined.

(** ** The wishlist's slot *)

Lemma wishlist_mount_mirrors
    (slot : option (Text Product)) (b : Wishlist.Backend) (n : list bool) :
  stale (Wishlist.mount slot b n) = false /\
  isAuthenticated (Wishlist.mount slot b n) = false /\
  mirrors (Wishlist.mount slot b n).
Proof.
  unfold Wishlist.mount, mirrors. unfold_wishlist_ops. unfold_runtime.
  rewrite loadWishlist_result. unfold_loaded. simpl.
  destruct slot as [[v| |]|]; simpl; auto.
Qed.

Lemma wishlist_step_mirrors (op : Wishlist.Op) (w : Wishlist.World) :
  stale w = false ->
  (isAuthenticated w = false -> mirrors w) ->
  stale (Wishlist.step w op) = false /\
  (isAuthenticated (Wishlist.step w op) = false -> mirrors (Wishlist.step w op)).
Proof.
  intros Hs Hm.
  destruct w as [a its l st slot b n]. unfold mirrors in *.
  simpl in Hs, Hm. subst st.
  destruct a.
  - clear Hm. destruct op; unfold_wishlist_ops; unfold_runtime;
      unfold Wishlist.post_wishlist_item; explore;
      (split; [reflexivity | intros; try discriminate; reflexivity]).
  - specialize (Hm eq_refl). subst slot.
    destruct op; unfold_wishlist_ops; unfold_runtime; explore;
      (split; [reflexivity | intros; try discriminate; reflexivity]).
Qed.

Lemma wishlist_run_mirrors
    (slot : option (Text Product)) (b : Wishlist.Backend) (n : list bool)
    (ops : list Wishlist.Op) :
  let w := Wishlist.run ops (Wishlist.mount slot b n) in
  stale w = false /\ (isAuthenticated w = false -> mirrors w).
Proof.
  simpl.
  assert (H0 : stale (Wishlist.mount slot b n) = false /\
               (isAuthenticated (Wishlist.mount slot b n) = false ->
                mirrors (Wishlist.mount slot b n))).
  { destruct (wishlist_mount_mirrors slot b n) as (Hs & _ & Hm). auto. }
  revert H0. generalize (Wishlist.mount slot b n).
  induction ops as [|op ops IH]; intros w [Hs Hm]; simpl; [auto|].
  apply IH. now apply wishlist_step_mirrors.
Qed.

(** X14: at every point of the wishlist provider's life where the
    visitor is anonymous, the wishlist slot holds exactly the
    serialization of the canonical snapshot, so that a reload of the
    page shows the same wishlist. *)
Theorem anonymous_wishlist_is_mirrored
    (slot : option (Text Product)) (b b' : Wishlist.Backend) (n n' : list bool)
    (ops : list Wishlist.Op) :
  let w := Wishlist.run ops (Wishlist.mount slot b n) in
  isAuthenticated w = false ->
  mirrors w /\ items (Wishlist.mount (localStorage w) b' n') = items w.
Proof.
  intros w Ha.
  destruct (wishlist_run_mirrors slot b n ops) as [_ Hm]. fold w in Hm.
  specialize (Hm Ha). split; [exact Hm|].
  unfold Wishlist.mount, exec, bind. rewrite loadWishlist_result.
  unfold mirrors in Hm. unfold_loaded. simpl. rewrite Hm. reflexivity.
Qed.

Lemma anonymous_wishlist_is_mirrored_witness :
  mirrors anonymous_wishlist /\
  items (Wishlist.mount (localStorage anonymous_wishlist)
           (Wishlist.mkBackend shop []) [])
  = items anonymous_wishlist.
Proof.
  apply (anonymous_wishlist_is_mirrored None (Wishlist.mkBackend shop [])
           (Wishlist.mkBackend shop []) [] []
           [Wishlist.Add productA; Wishlist.Add productB]).
  reflexivity.
Defined.

Lemma wishlist_clear_fallback (w : Wishlist.World) :
  isAuthenticated w = true ->
  request_fails Wishlist.delete_wishlist w ->
  items (Wishlist.step w Wishlist.Clear) = [] /\
  only_items_changed w (Wishlist.step w Wishlist.Clear).
Proof.
  destruct w as [a its l st slot b n]. simpl. intros -> [e F].
  unfold request in F; simpl in F.
  destruct n as [|[|] n]; simpl in F; try discriminate.
  unfold_wishlist_ops; unfold_runtime; unfold only_items_changed; simpl; auto.
Qed.

Lemma wishlist_logout_reads_slot (w : Wishlist.World) :
  items (Wishlist.step w Wishlist.Logout) = slot_entries (localStorage w).
Proof.
  destruct w as [a its l st slot b n].
  unfold_wishlist_ops; unfold_runtime; unfold slot_entries.
  evaluate_with idtac. destruct slot as [[v| |]|]; reflexivity.
Qed.

(** X15: what a failed remote call makes the wishlist do locally while
    signed in (insert, filter, or empty the snapshot) does not reach
    the slot, so logging out brings back the slot's entries: a product
    added this way is gone, one removed or cleared this way is back. *)
Theorem wishlist_fallback_is_lost_at_logout
    (op : Wishlist.Op) (w : Wishlist.World) (stored : list Product) :
  isAuthenticated w = true ->
  localStorage w = Some (Stringified stored) ->
  wishlist_fallback op w ->
  items (Wishlist.step w op) = wish_effect op (items w) /\
  items (Wishlist.run [op; Wishlist.Logout] w) = stored.
Proof.
  intros Ha Hs Hf. simpl. rewrite wishlist_logout_reads_slot.
  assert (H : items (Wishlist.step w op) = wish_effect op (items w) /\
              only_items_changed w (Wishlist.step w op)).
  { destruct op; simpl in Hf; try contradiction.
    - destruct (wishlist_add_fallback prod w Ha Hf). auto.
    - now apply wishlist_remove_fallback.
    - now apply wishlist_clear_fallback. }
  destruct H as [E (_ & _ & Hslot & _)].
  split; [exact E|]. rewrite Hslot, Hs. reflexivity.
Qed.

Lemma wishlist_fallback_is_lost_at_logout_witness :
  items (Wishlist.step offline_wishlist Wishlist.Clear) = [] /\
  items (Wishlist.run [Wishlist.Clear; Wishlist.Logout] offline_wishlist)
  = [productA].
Proof.
  assert (F : wishlist_fallback Wishlist.Clear offline_wishlist)
    by (exists NetworkError; reflexivity).
  exact (wishlist_fallback_is_lost_at_logout Wishlist.Clear offline_wishlist
           [productA] eq_refl eq_refl F).
Defined.

(** ** The pages that call the providers *)

(** X16: whatever the quantity, the step and the stock, the quantity
    chosen on the product page is at least one and at most the larger of
    one and the stock; and from a quantity between one and the stock, an
    enabled minus or plus button moves it by exactly one. *)
Theorem chosen_quantity_is_bounded
    (stock_quantity : Product -> Z) (product : option Product)
    (quantity delta : Z) :
  let stock := ProductDetail.stock_or_one stock_quantity product in
  let chosen :=
    ProductDetail.handleQuantityChange stock_quantity product quantity delta in
  1 <= chosen <= Z.max 1 stock /\
  (1 <= quantity <= stock ->
   (1 < quantity ->
    ProductDetail.handleQuantityChange stock_quantity product quantity (-1)
    = quantity - 1) /\
   (quantity < stock ->
    ProductDetail.handleQuantityChange stock_quantity product quantity 1
    = quantity + 1)).
Proof.
  unfold ProductDetail.handleQuantityChange. simpl. lia.
Qed.

Lemma chosen_quantity_is_bounded_witness :
  ProductDetail.handleQuantityChange (fun _ => 3) (Some productA) 1 1 = 2 /\
  ProductDetail.handleQuantityChange (fun _ => 3) (Some productA) 3 5 = 3 /\
  ProductDetail.handleQuantityChange (fun _ => 0) (Some productA) 1 (-4) = 1.
Proof.
  destruct (chosen_quantity_is_bounded (fun _ => 3) (Some productA) 1 1)
    as [_ H].
  assert (B : 1 <= 1 <= 3) by lia. assert (L : 1 < 3) by lia.
  destruct (H B) as [_ Hplus].
  split; [exact (Hplus L)|]. split; reflexivity.
Defined.

Lemma product_page_click
    (stock_quantity : Product -> Z) (page : ProductDetail.Page)
    (c : ProductDetail.Click) :
  isAuthenticated (ProductDetail.cart page) = false ->
  1 <= ProductDetail.quantity page ->
  unique_products (items (ProductDetail.cart page)) /\
  positive_quantities (items (ProductDetail.cart page)) ->
  let page' := ProductDetail.click stock_quantity page c in
  isAuthenticated (ProductDetail.cart page') = false /\
  1 <= ProductDetail.quantity page' /\
  unique_products (items (ProductDetail.cart page')) /\
  positive_quantities (items (ProductDetail.cart page')).
Proof.
  intros Ha Hq [Hu Hp]. destruct page as [shown q w]. simpl in *.
  destruct c as [delta|]; simpl.
  - unfold ProductDetail.handleQuantityChange. repeat split; auto; lia.
  - destruct shown as [p|]; [|auto].
    destruct (stock_quantity p =? 0); simpl; [auto|].
    split; [now apply anonymous_step|]. split; [exact Hq|]. split.
    + now apply anonymous_step_unique.
    + now apply anonymous_step_positive.
Qed.

(** X17: on the product page of an anonymous visitor, no sequence of
    quantity changes (by any step) and add-to-cart clicks puts a
    quantity below one into the cart or a product twice: the page only
    ever calls [addToCart] with a quantity of at least one. *)
Theorem product_page_keeps_cart_sound
    (stock_quantity : Product -> Z) (product : option Product)
    (w : Cart.World) (clicks : list ProductDetail.Click) :
  isAuthenticated w = false ->
  unique_products (items w) ->
  positive_quantities (items w) ->
  let page := ProductDetail.session stock_quantity clicks
                (ProductDetail.opened product w) in
  1 <= ProductDetail.quantity page /\
  unique_products (items (ProductDetail.cart page)) /\
  positive_quantities (items (ProductDetail.cart page)).
Proof.
  intros Ha Hu Hp. unfold ProductDetail.session.
  assert (H : isAuthenticated (ProductDetail.cart (ProductDetail.opened product w)) = false /\
              1 <= ProductDetail.quantity (ProductDetail.opened product w) /\
              unique_products (items (ProductDetail.cart (ProductDetail.opened product w))) /\
              positive_quantities (items (ProductDetail.cart (ProductDetail.opened product w)))).
  { simpl. repeat split; auto; lia. }
  revert H. generalize (ProductDetail.opened product w).
  induction clicks as [|c clicks IH]; intros page (Ha' & Hq & Hu' & Hp'); simpl.
  - auto.
  - apply IH. apply product_page_click; auto.
Qed.

Lemma product_page_keeps_cart_sound_witness :
  items (ProductDetail.cart
           (ProductDetail.session (fun _ => 3)
              [ProductDetail.ChangeQuantity (-1); ProductDetail.AddToCartClick;
               ProductDetail.ChangeQuantity 1; ProductDetail.AddToCartClick]
              (ProductDetail.opened (Some productA)
                 (Cart.mount None (Cart.mkBackend shop []) []))))
  = [mkCartItem productA 3] /\
  positive_quantities
    (items (ProductDetail.cart
              (ProductDetail.session (fun _ => 3)
                 [ProductDetail.ChangeQuantity (-1); ProductDetail.AddToCartClick;
                  ProductDetail.ChangeQuantity 1; ProductDetail.AddToCartClick]
                 (ProductDetail.opened (Some productA)
                    (Cart.mount None (Cart.mkBackend shop []) []))))).
Proof.
  split; [reflexivity|].
  assert (Hu : unique_products
                 (items (Cart.mount None (Cart.mkBackend shop []) [])))
    by constructor.
  assert (Hp : positive_quantities
                 (items (Cart.mount None (Cart.mkBackend shop []) [])))
    by constructor.
  exact (proj2 (proj2 (product_page_keeps_cart_sound (fun _ => 3) (Some productA)
           (Cart.mount None (Cart.mkBackend shop []) [])
           [ProductDetail.ChangeQuantity (-1); ProductDetail.AddToCartClick;
            ProductDetail.ChangeQuantity 1; ProductDetail.AddToCartClick]
           eq_refl Hu Hp))).
Defined.

Lemma row_is_positive (its : list CartItem) (row : nat) (item : CartItem) :
  positive_quantities its -> nth_error its row = Some item -> 0 < quantity item.
Proof.
  unfold positive_quantities. rewrite Forall_forall.
  intros H E. apply H. eapply nth_error_In, E.
Qed.

Lemma cart_page_click
    (stock_quantity : Product -> Z) (w : Cart.World) (c : CartPage.Click) :
  isAuthenticated w = false ->
  unique_products (items w) /\ positive_quantities (items w) ->
  let w' := CartPage.click stock_quantity w c in
  isAuthenticated w' = false /\
  unique_products (items w') /\ positive_quantities (items w') /\
  match c with
  | CartPage.Minus _ | CartPage.Plus _ =>
      map product (items w') = map product (items w)
  | _ => True
  end.
Proof.
  intros Ha [Hu Hp]. destruct c as [row|row|row|]; simpl.
  - destruct (nth_error (items w) row) as [item|] eqn:E; [|auto].
    destruct (Z.leb_spec (quantity item) 1); [auto|].
    set (op := Cart.Update (id (product item)) (quantity item - 1)).
    assert (Hop : anonymous_op op) by exact I.
    assert (Hm : anonymous_mutation op) by exact I.
    split; [now apply anonymous_step|].
    split; [now apply anonymous_step_unique|].
    split; [now apply anonymous_step_positive|].
    destruct (anonymous_step w op Ha Hm) as [_ ->]. simpl.
    destruct (Z.leb_spec (quantity item - 1) 0); [lia|].
    unfold Cart.update_locally. rewrite map_map. apply map_ext.
    intros x. destruct (Cart.same_id _ x); reflexivity.
  - destruct (nth_error (items w) row) as [item|] eqn:E; [|auto].
    destruct (Z.leb_spec (stock_quantity (product item)) (quantity item)); [auto|].
    pose proof (row_is_positive _ _ _ Hp E) as Hq.
    set (op := Cart.Update (id (product item)) (quantity item + 1)).
    assert (Hop : anonymous_op op) by exact I.
    assert (Hm : anonymous_mutation op) by exact I.
    split; [now apply anonymous_step|].
    split; [now apply anonymous_step_unique|].
    split; [now apply anonymous_step_positive|].
    destruct (anonymous_step w op Ha Hm) as [_ ->]. simpl.
    destruct (Z.leb_spec (quantity item + 1) 0); [lia|].
    unfold Cart.update_locally. rewrite map_map. apply map_ext.
    intros x. destruct (Cart.same_id _ x); reflexivity.
  - destruct (nth_error (items w) row) as [item|] eqn:E; [|auto].
    set (op := Cart.Remove (id (product item))).
    assert (Hop : anonymous_op op) by exact I.
    assert (Hm : anonymous_mutation op) by exact I.
    split; [now apply anonymous_step|].
    split; [now apply anonymous_step_unique|].
    split; [now apply anonymous_step_positive|exact I].
  - destruct w as [a its l st slot b n]. simpl in Ha. subst a.
    unfold_cart_ops; unfold_runtime; simpl.
    repeat split; constructor.
Qed.

(** X18: on the cart page of an anonymous visitor, no sequence of
    minus, plus, trash and clear-cart clicks breaks the cart (products
    stay distinct, quantities positive), and a minus or plus click never
    removes or adds a row: from a cart with positive quantities the
    quantity buttons cannot reach [updateQuantity]'s removal branch. *)
Theorem cart_page_keeps_cart_sound
    (stock_quantity : Product -> Z) (w : Cart.World)
    (clicks : list CartPage.Click) (row : nat) :
  isAuthenticated w = false ->
  unique_products (items w) ->
  positive_quantities (items w) ->
  let w' := CartPage.session stock_quantity clicks w in
  unique_products (items w') /\ positive_quantities (items w') /\
  map product (items (CartPage.click stock_quantity w' (CartPage.Minus row)))
  = map product (items w') /\
  map product (items (CartPage.click stock_quantity w' (CartPage.Plus row)))
  = map product (items w').
Proof.
  intros Ha Hu Hp. unfold CartPage.session.
  assert (H : isAuthenticated w = false /\
              unique_products (items w) /\ positive_quantities (items w)) by auto.
  clear Ha Hu Hp. revert w H.
  induction clicks as [|c clicks IH]; intros w (Ha & Hu & Hp); simpl.
  - split; [exact Hu|]. split; [exact Hp|]. split.
    + apply (cart_page_click stock_quantity w (CartPage.Minus row) Ha (conj Hu Hp)).
    + apply (cart_page_click stock_quantity w (CartPage.Plus row) Ha (conj Hu Hp)).
  - apply IH.
    destruct (cart_page_click stock_quantity w c Ha (conj Hu Hp)) as (A & B & C & _).
    auto.
Qed.

Lemma cart_page_keeps_cart_sound_witness :
  items (CartPage.session (fun _ => 2)
           [CartPage.Minus 1; CartPage.Minus 0; CartPage.Plus 0; CartPage.Plus 1]
           anonymous_cart)
  = [mkCartItem productA 2; mkCartItem productB 2] /\
  positive_quantities
    (items (CartPage.session (fun _ => 2)
              [CartPage.Minus 1; CartPage.Minus 0; CartPage.Plus 0; CartPage.Plus 1]
              anonymous_cart)).
Proof.
  split; [reflexivity|].
  assert (Hu : unique_products (items anonymous_cart)).
  { unfold unique_products. simpl.
    repeat constructor; simpl; intuition discriminate. }
  assert (Hp : positive_quantities (items anonymous_cart))
    by (repeat constructor; simpl; lia).
  exact (proj1 (proj2 (cart_page_keeps_cart_sound (fun _ => 2) anonymous_cart
           [CartPage.Minus 1; CartPage.Minus 0; CartPage.Plus 0; CartPage.Plus 1]
           0%nat eq_refl Hu Hp))).
Defined.

Lemma positive_total (its : list CartItem) :
  positive_quantities its ->
  Z.of_nat (List.length its) <= sum_of_quantities its.
Proof.
  induction 1 as [|e r He Hr IH]; [simpl; lia|].
  change (Z.of_nat (S (List.length r)) <= quantity e + sum_of_quantities r).
  lia.
Qed.

Lemma badge_cases (n : Z) :
  (Layout.badge n = Layout.Hidden <-> n <= 0) /\
  (forall shown, Layout.badge n = Layout.Count shown -> shown = n /\ 1 <= n <= 9) /\
  (Layout.badge n = Layout.NinePlus <-> 9 < n).
Proof.
  unfold Layout.badge.
  destruct (Z.ltb_spec 0 n); destruct (Z.ltb_spec 9 n);
    (split; [|split]); try split; intros; try discriminate; try lia;
    try reflexivity.
  all: match goal with H : Layout.Count _ = Layout.Count _ |- _ =>
         injection H as <- end; lia.
Qed.

Lemma empty_iff_no_length {A : Type} (l : list A) :
  Z.of_nat (List.length l) <= 0 <-> l = [].
Proof.
  destruct l; simpl; split; intros H; try reflexivity; try discriminate; lia.
Qed.

(** X19: with positive quantities in the cart, the header's cart badge
    is hidden exactly when the cart is empty, and a number it shows is
    the total number of items, between one and nine (above that it shows
    "9+"); the wishlist badge is hidden exactly when the wishlist is
    empty. *)
Theorem badges_show_what_is_there (wc : Cart.World) (ww : Wishlist.World) :
  positive_quantities (items wc) ->
  (Layout.cart_badge wc = Layout.Hidden <-> items wc = []) /\
  (forall shown, Layout.cart_badge wc = Layout.Count shown ->
     shown = sum_of_quantities (items wc) /\ 1 <= shown <= 9) /\
  (Layout.cart_badge wc = Layout.NinePlus <-> 9 < sum_of_quantities (items wc)) /\
  (Layout.wishlist_badge ww = Layout.Hidden <-> items ww = []).
Proof.
  intros Hp. pose proof (positive_total _ Hp) as Ht.
  assert (Hn : nonnegative_quantities (items wc)).
  { unfold nonnegative_quantities. eapply Forall_impl; [|exact Hp].
    simpl. intros item Hi. lia. }
  destruct (total_in_range (items wc) Hn) as [Hx Hg].
  unfold Layout.cart_badge, Layout.wishlist_badge.
  destruct (badge_cases (Cart.getTotalItems (items wc))) as (Hh & Hc & Hn9).
  destruct (badge_cases (Z.of_nat (List.length (items ww)))) as (Hw & _ & _).
  assert (Hempty : items wc = [] -> sum_of_quantities (items wc) = 0)
    by (intros ->; reflexivity).
  destruct (Z_le_gt_dec (sum_of_quantities (items wc)) (2 ^ 53)) as [L|G].
  - rewrite (Hx L) in Hh, Hc, Hn9 |- *.
    split; [|split; [|split]].
    + rewrite Hh. split.
      * intros H. apply empty_iff_no_length. lia.
      * intros E. rewrite (Hempty E). lia.
    + intros shown H. destruct (Hc shown H) as [-> B]. auto.
    + exact Hn9.
    + rewrite Hw. apply empty_iff_no_length.
  - assert (B : 2 ^ 53 <= Cart.getTotalItems (items wc)) by (apply Hg; lia).
    split; [|split; [|split]].
    + rewrite Hh. split; [lia|]. intros E. rewrite (Hempty E) in G. lia.
    + intros shown H. destruct (Hc shown H) as [-> B']. lia.
    + rewrite Hn9. split; lia.
    + rewrite Hw. apply empty_iff_no_length.
Qed.

Lemma badges_show_what_is_there_witness :
  Layout.cart_badge anonymous_cart = Layout.Count 3 /\
  (Layout.cart_badge anonymous_cart = Layout.Hidden <-> items anonymous_cart = []).
Proof.
  split; [reflexivity|].
  assert (Hp : positive_quantities (items anonymous_cart))
    by (repeat constructor; simpl; lia).
  exact (proj1 (badges_show_what_is_there anonymous_cart anonymous_wishlist Hp)).
Defined.

Lemma rem_below_twice (a len : Z) :
  0 < len -> 0 <= a < 2 * len ->
  Z.rem a len = if a <? len then a else a - len.
Proof.
  intros Hl Ha. rewrite Z.rem_mod_nonneg by lia.
  destruct (Z.ltb_spec a len); [apply Z.mod_small; lia|].
  replace a with (a - len + 1 * len) at 1 by lia.
  rewrite Z.mod_add by lia. apply Z.mod_small. lia.
Qed.

(** X20: on a slider of at least one product, from a valid index the
    next and previous slides are valid indices again, each undoes the
    other, and the slider wraps around at both ends. *)
Theorem slider_stays_in_range (len index : Z) :
  0 < len ->
  0 <= index < len ->
  0 <= Home.nextSlide len index < len /\
  0 <= Home.prevSlide len index < len /\
  Home.prevSlide len (Home.nextSlide len index) = index /\
  Home.nextSlide len (Home.prevSlide len index) = index /\
  Home.nextSlide len (len - 1) = 0 /\
  Home.prevSlide len 0 = len - 1.
Proof.
  intros Hl Hi. unfold Home.nextSlide, Home.prevSlide.
  rewrite (rem_below_twice (index + 1) len) by lia.
  rewrite (rem_below_twice (index - 1 + len) len) by lia.
  rewrite (rem_below_twice (len - 1 + 1) len) by lia.
  rewrite (rem_below_twice (0 - 1 + len) len) by lia.
  destruct (Z.ltb_spec (index + 1) len); destruct (Z.ltb_spec (index - 1 + len) len);
    destruct (Z.ltb_spec (len - 1 + 1) len); destruct (Z.ltb_spec (0 - 1 + len) len);
    try lia;
    repeat split; try lia;
    rewrite rem_below_twice by lia;
    match goal with |- context [if ?c then _ else _] => destruct c eqn:E end;
    try lia;
    first [apply Z.ltb_lt in E | apply Z.ltb_ge in E]; lia.
Qed.

Lemma slider_stays_in_range_witness :
  Home.nextSlide 6 5 = 0 /\ Home.prevSlide 6 0 = 5 /\
  Home.prevSlide 6 (Home.nextSlide 6 2) = 2.
Proof.
  assert (Hl : 0 < 6) by lia. assert (Hi : 0 <= 2 < 6) by lia.
  destruct (slider_stays_in_range 6 2 Hl Hi) as (_ & _ & Hpn & _ & Hw & Hz).
  split; [exact Hw|]. split; [exact Hz | exact Hpn].
Defined.

(** X21: [getImageUrl] returns the empty string for a missing or empty
    url and otherwise a string that starts with "http"; a url that
    already does is returned as it is, and applying the function to its
    own result changes nothing. *)
Theorem image_url_is_absolute (url : option string) :
  (getImageUrl url = ""%string \/
   String.prefix "http" (getImageUrl url) = true) /\
  (getImageUrl url = ""%string <-> url = None \/ url = Some ""%string) /\
  (forall u, url = Some u -> String.prefix "http" u = true ->
     getImageUrl url = u) /\
  getImageUrl (Some (getImageUrl url)) = getImageUrl url.
Proof.
  destruct url as [u|]; simpl.
  - destruct (String.eqb_spec u "") as [->|Hne]; simpl.
    + repeat split; auto. intros u' E P. now injection E as <-.
    + destruct (String.prefix "http" u) eqn:P; simpl.
      * split; [right; exact P|]. split; [split|split].
        -- intros E. contradiction.
        -- intros [E|E]; [discriminate|]. injection E as E. contradiction.
        -- intros u' E _. now injection E as <-.
        -- destruct (String.eqb_spec u ""); [contradiction|]. now rewrite P.
      * split; [right; reflexivity|]. split; [split|split].
        -- discriminate.
        -- intros [E|E]; [discriminate|]. injection E as E. contradiction.
        -- intros u' E P'. injection E as <-. congruence.
        -- reflexivity.
  - repeat split; auto. intros u E. discriminate.
Qed.

Lemma image_url_is_absolute_witness :
  getImageUrl (Some "/media/rose.png"%string)
  = "http://localhost:8000/media/rose.png"%string /\
  getImageUrl (Some "https://cdn.example/rose.png"%string)
  = "https://cdn.example/rose.png"%string /\
  getImageUrl (Some (getImageUrl (Some "/media/rose.png"%string)))
  = getImageUrl (Some "/media/rose.png"%string).
Proof.
  split; [reflexivity|].
  destruct (image_url_is_absolute (Some "https://cdn.example/rose.png"%string))
    as (_ & _ & Hkept & _).
  destruct (image_url_is_absolute (Some "/media/rose.png"%string))
    as (_ & _ & _ & Hidem).
  split; [apply Hkept; reflexivity | exact Hidem].
Defined.

(** ** Checkout *)

(** X22: [handleSubmit] never throws. A rejected form sends nothing and
    leaves the cart alone.  On success [clearCart] has been started but
    not awaited: an anonymous visitor reaches the order page with the
    cart already empty, a signed-in customer reaches it with the cart as
    [syncCart] left it, and in both cases the cart is empty once the
    pending [clearCart] has settled, whatever became of its request.
    When the order or its payment fails for an anonymous visitor the
    snapshot is kept as it was, also when the order had already been
    created. *)
Theorem checkout_empties_cart_only_on_success
    (create_from_cart : Cart.Backend -> result string * Cart.Backend)
    (create_with_items :
       list CartItem -> Cart.Backend -> result string * Cart.Backend)
    (process_payment : string -> Cart.Backend -> result unit * Cart.Backend)
    (valid : bool) (w : Cart.World) :
  match Checkout.submit create_from_cart create_with_items process_payment
          valid w with
  | (Ok Checkout.Invalid, w') =>
      valid = false /\ items w' = items w /\ server w' = server w /\
      net w' = net w
  | (Ok Checkout.Navigated, w') =>
      valid = true /\
      (isAuthenticated w = false -> items w' = []) /\
      (isAuthenticated w = true -> items w' = items (Cart.step w Cart.Sync)) /\
      (exists w'', Checkout.settle Checkout.Navigated w' = (Ok tt, w'') /\
                   items w'' = [])
  | (Ok (Checkout.Failed _), w') =>
      valid = true /\ (isAuthenticated w = false -> items w' = items w)
  | (Throw _, _) => False
  end.
Proof.
  destruct w as [a its l st slot b n].
  unfold Checkout.submit, Checkout.handleSubmit, Checkout.settle,
    Checkout.clearCart_unawaited, Checkout.clearCart_pending.
  destruct valid; simpl.
  - destruct a; unfold_cart_ops; unfold_runtime;
      repeat first
        [ progress explore
        | match goal with
          | |- context [create_from_cart ?x] =>
              destruct (create_from_cart x) as [[order|e] b1]
          | |- context [create_with_items ?x ?y] =>
              destruct (create_with_items x y) as [[order|e] b1]
          | |- context [process_payment ?x ?y] =>
              destruct (process_payment x y) as [[[]|e] b2]
          end ];
      repeat match goal with
             | |- _ /\ _ => split
             | |- exists _, _ => eexists
             end;
      auto; intros; try discriminate; reflexivity.
  - unfold_cart_ops; unfold_runtime; simpl. destruct st; simpl; auto.
Qed.

Lemma checkout_empties_cart_only_on_success_witness :
  items (snd (Checkout.submit
                (fun b => (Ok "order-1"%string, b))
                (fun _ b => (Ok "order-1"%string, b))
                (fun _ b => (@Throw unit (HttpError 402), b))
                true anonymous_cart))
  = items anonymous_cart.
Proof.
  pose proof (checkout_empties_cart_only_on_success
                (fun b => (Ok "order-1"%string, b))
                (fun _ b => (Ok "order-1"%string, b))
                (fun _ b => (@Throw unit (HttpError 402), b))
                true anonymous_cart) as H.
  destruct (Checkout.submit _ _ _ true anonymous_cart) as [[[| |e]|e] w'] eqn:E;
    try discriminate E.
  apply H. reflexivity.
Defined.

(** A signed-in customer whose order goes through is shown the order
    page with the cart still full. *)
Example order_page_is_reached_with_a_full_cart :
  let member := with_auth true anonymous_cart in
  let placed := Checkout.submit
                  (fun b => (Ok "order-1"%string, b))
                  (fun _ b => (Ok "order-1"%string, b))
                  (fun _ b => (Ok tt, b))
                  true member in
  fst placed = Ok Checkout.Navigated /\
  items (snd placed) = [mkCartItem productA 2; mkCartItem productB 1] /\
  items (snd (Checkout.settle Checkout.Navigated (snd placed))) = [].
Proof. vm_compute. repeat split; reflexivity. Qed.

(** ** The auth provider *)

(** X23: signing out is final across page reloads. After [logout],
    and equally after one [checkAuth] that got an error (a lost request
    as much as a rejected token), both tokens are erased, so that a
    reload stays signed out whatever the backend answers then. *)
Theorem signed_out_for_good
    (e : exn) (me : result Auth.User) (s : Auth.State) :
  Auth.isAuthenticated (Auth.logout s) = false /\
  Auth.isAuthenticated (Auth.reload me (Auth.logout s)) = false /\
  Auth.isAuthenticated (Auth.reload (Throw e) s) = false /\
  Auth.loading (Auth.reload (Throw e) s) = false /\
  Auth.isAuthenticated (Auth.reload me (Auth.reload (Throw e) s)) = false.
Proof.
  split; [reflexivity|]. split; [reflexivity|].
  destruct s as [u l [access|] refresh]; unfold Auth.reload, Auth.checkAuth; simpl;
    [destruct (String.eqb access ""%string) eqn:E; simpl; rewrite ?E|]; auto.
Qed.

(** X24: [login] lets its errors through and signs in only when both
    of its requests succeed. When the token exchange succeeded but
    fetching the user failed, the visitor stays signed out although both
    tokens are stored, so that a later reload with an answering backend
    signs the visitor in. *)
Theorem login_outcomes
    (access refresh : string) (u u' : Auth.User) (e : exn)
    (me : result Auth.User) (s : Auth.State) :
  Auth.login (Throw e) me s = (Throw e, s) /\
  (let (r, s') := Auth.login (Ok (access, refresh)) (Ok u) s in
   r = Ok tt /\ Auth.user s' = Some u /\
   Auth.access_token s' = Some access /\ Auth.refresh_token s' = Some refresh) /\
  (let (r, s') := Auth.login (Ok (access, refresh)) (Throw e) s in
   r = Throw e /\ Auth.user s' = Auth.user s /\
   Auth.access_token s' = Some access /\
   (access <> ""%string ->
    Auth.user (Auth.reload (Ok u') s') = Some u')).
Proof.
  split; [reflexivity|]. split; simpl; repeat split.
  intros Hne. unfold Auth.reload, Auth.checkAuth. simpl.
  destruct (String.eqb_spec access ""); [contradiction | reflexivity].
Qed.

Lemma login_outcomes_witness :
  let member := Auth.mkUser "ada@example.org" Auth.customer in
  let half := snd (Auth.login (Ok ("t1"%string, "t2"%string))
                     (Throw NetworkError) (Auth.mount None None)) in
  Auth.isAuthenticated half = false /\
  Auth.user (Auth.reload (Ok member) half) = Some member.
Proof.
  simpl. split; [reflexivity|].
  destruct (login_outcomes "t1"%string "t2"%string
              (Auth.mkUser "ada@example.org" Auth.customer)
              (Auth.mkUser "ada@example.org" Auth.customer) NetworkError
              (Throw NetworkError) (Auth.mount None None)) as (_ & _ & H).
  simpl in H. destruct H as (_ & _ & _ & Hreload).
  apply Hreload. discriminate.
Defined.

(** ** Mounting and clearing *)

(** X25: mounting a provider sends no request and shows what the slot
    holds: its entries, or nothing when the slot is absent, empty or not
    parseable; it ends anonymous and loaded, with the slot rewritten to
    mirror the snapshot. *)
Theorem mount_shows_the_slot
    (cslot : option (Text CartItem)) (bc : Cart.Backend)
    (wslot : option (Text Product)) (bw : Wishlist.Backend) (n : list bool) :
  Cart.mount cslot bc n
  = mkWorld false (slot_entries cslot) false false
      (Some (Stringified (slot_entries cslot))) bc n /\
  Wishlist.mount wslot bw n
  = mkWorld false (slot_entries wslot) false false
      (Some (Stringified (slot_entries wslot))) bw n.
Proof.
  unfold Cart.mount, Wishlist.mount, slot_entries.
  unfold_cart_ops. unfold_wishlist_ops. unfold_runtime.
  evaluate_with idtac.
  destruct cslot as [[v| |]|], wslot as [[v'| |]|]; split; reflexivity.
Qed.

(** X26: what clearing leaves in the slot. The cart's slot always ends
    holding the empty list: the persist effect writes it back after
    [removeItem]. The wishlist's slot ends holding the empty list for an
    anonymous visitor, absent when the signed-in delete-all is answered,
    and untouched when it fails. *)
Theorem clearing_and_the_slot (wc : Cart.World) (ww : Wishlist.World) :
  localStorage (Cart.step wc Cart.Clear) = Some (Stringified []) /\
  (isAuthenticated ww = false ->
   localStorage (Wishlist.step ww Wishlist.Clear) = Some (Stringified [])) /\
  (isAuthenticated ww = true -> reaches 1 ww ->
   localStorage (Wishlist.step ww Wishlist.Clear) = None) /\
  (isAuthenticated ww = true ->
   request_fails Wishlist.delete_wishlist ww ->
   localStorage (Wishlist.step ww Wishlist.Clear) = localStorage ww).
Proof.
  split; [|split; [|split]].
  - destruct wc as [a its l st slot b n].
    unfold_cart_ops; unfold_runtime. explore; reflexivity.
  - destruct ww as [a its l st slot b n]; simpl. intros ->.
    unfold_wishlist_ops; unfold_runtime. reflexivity.
  - intros Ha Hn. apply reaches_one_cases in Hn.
    destruct ww as [a its l st slot b n]; simpl in Ha, Hn; subst a.
    destruct Hn as [->|[rest ->]];
      unfold_wishlist_ops; unfold_runtime; reflexivity.
  - intros Ha Hf. now apply wishlist_clear_fallback.
Qed.

Lemma clearing_and_the_slot_witness :
  localStorage (Cart.step offline_cart Cart.Clear) = Some (Stringified []) /\
  localStorage (Wishlist.step offline_wishlist Wishlist.Clear)
  = Some (Stringified [productA]) /\
  localStorage (Wishlist.step member_wishlist Wishlist.Clear) = None.
Proof.
  destruct (clearing_and_the_slot offline_cart offline_wishlist)
    as (Hc & _ & _ & Hfailed).
  destruct (clearing_and_the_slot offline_cart member_wishlist)
    as (_ & _ & Hanswered & _).
  split; [exact Hc|]. split.
  - apply Hfailed; [reflexivity | exists NetworkError; reflexivity].
  - apply Hanswered; [reflexivity | unfold reaches; simpl; constructor].
Defined.
